(** * prometheus-dyson: connection supervision of [main.py]

    A shallow embedding of [DeviceWrapper], [ConnectionManager] and [main]
    from [main.py], and the properties of their connection lifecycle.

    Python objects are records, a method is a computation in a small
    state/exception/output monad whose state is the object the method
    is called on ([self] for [DeviceWrapper], the wrapped device for the
    manager's callbacks), and every call into [libdyson], [logging],
    [threading], the discovery service and the metrics callback is
    recorded, in program order, as an [Effect].

    [libdyson] is a library outside the repository. Its handle is
    modelled by what [main.py] reads from it, and its calls by the
    outcomes [main.py] provides for: [connect] returns, with the handle
    connected, or raises [DysonConnectTimeout];
    [request_environmental_data] returns or raises [AttributeError];
    [disconnect] leaves the handle not connected. *)

From Stdlib Require Import ZArith String Ascii List Bool Lia.
From stdpp Require Import base option list gmap strings pretty.
Import ListNotations.
Local Open Scope Z_scope.
Local Open Scope string_scope.
Local Open Scope list_scope.

(** ** Data *)

(** Modelled from the spec: [config.Device], the record of module
    [config] (display name, serial, credentials, product type). *)
Record Device := mkDevice {
  dev_name : string;
  dev_serial : string;
  dev_credentials : string;
  dev_product_type : string
}.

(** [libdyson.MessageType] has the members [STATE] and [ENVIRONMENTAL];
    a listener may be handed any other object as well. *)
Inductive Message :=
| STATE
| ENVIRONMENTAL
| OtherMessage (repr : string).

Definition Message_eqb (a b : Message) : bool :=
  match a, b with
  | STATE, STATE => true
  | ENVIRONMENTAL, ENVIRONMENTAL => true
  | OtherMessage x, OtherMessage y => String.eqb x y
  | _, _ => false
  end.

Definition Message_str (m : Message) : string :=
  match m with
  | STATE => "MessageType.STATE"
  | ENVIRONMENTAL => "MessageType.ENVIRONMENTAL"
  | OtherMessage s => s
  end.

(** The exceptions [main.py] catches by name. *)
Inductive Exn :=
| DysonConnectTimeout
| AttributeError.

Definition Exn_eqb (a b : Exn) : bool :=
  match a, b with
  | DysonConnectTimeout, DysonConnectTimeout => true
  | AttributeError, AttributeError => true
  | _, _ => false
  end.

Inductive Level := DEBUG | INFO | WARNING | ERROR | FATAL | EXCEPTION.

(** What a [threading.Timer] started by a [DeviceWrapper] will call:
    [self.connect] with [args=[host]], or [self._timer_callback]. *)
Inductive TimerTarget :=
| connect_args (host : string)
| timer_callback.

(** The two [functools.partial] closures the manager hands out; both bind
    the device they are created for. *)
Inductive Callback :=
| device_callback
| discovery_callback.

(** Calls that leave [main.py], in the order they are made. *)
Inductive Effect :=
| Log (lvl : Level) (fmt : string) (args : list string)
| LibConnect (host : string)
| LibDisconnect
| LibRequestEnvironmentalData
| LibAddMessageListener (cb : Callback)
| TimerStart (secs : Z) (target : TimerTarget)
| StartDiscovery
| StopDiscovery
| RegisterDevice (cb : Callback)
| UpdateFn (name serial : string) (is_state is_environmental : bool).

(** The [libdyson] handle of one device, as far as [main.py] observes it:
    the [is_connected] property and the listeners added so far. *)
Record DysonDevice := mkDysonDevice {
  dyson_connected : bool;
  dyson_listeners : list Callback
}.

Record DeviceWrapper := mkDeviceWrapper {
  _config_device : Device;
  _environment_refresh_secs : Z;
  libdyson : DysonDevice
}.

(** What the [libdyson] calls of one callback run do: [connect] returns
    or raises [DysonConnectTimeout], [request_environmental_data] returns
    or raises [AttributeError] (the handle was torn down under it). *)
Inductive ConnectOutcome := ConnectOk | ConnectTimesOut.
Inductive RequestOutcome := RequestOk | RequestHandleGone.

Record Libdyson := mkLibdyson {
  connect_outcome : ConnectOutcome;
  request_outcome : RequestOutcome
}.

(** ** The monad of method bodies *)

Inductive Res (A : Type) :=
| Ret (a : A)
| Raise (e : Exn).
Arguments Ret {A} a.
Arguments Raise {A} e.

Definition M (A : Type) : Type :=
  DeviceWrapper -> Res A * DeviceWrapper * list Effect.

Definition ret {A} (a : A) : M A := fun self => (Ret a, self, []).

Definition bind {A B} (m : M A) (k : A -> M B) : M B :=
  fun self =>
    match m self with
    | (Ret a, self1, out1) =>
        match k a self1 with
        | (r, self2, out2) => (r, self2, out1 ++ out2)
        end
    | (Raise e, self1, out1) => (Raise e, self1, out1)
    end.

Definition raise {A} (e : Exn) : M A := fun self => (Raise e, self, []).

(** [try: body except e: handler]; other exceptions pass through. *)
Definition try_except {A} (body : M A) (e : Exn) (handler : M A) : M A :=
  fun self =>
    match body self with
    | (Ret a, self1, out1) => (Ret a, self1, out1)
    | (Raise e', self1, out1) =>
        if Exn_eqb e' e then
          match handler self1 with
          | (r, self2, out2) => (r, self2, out1 ++ out2)
          end
        else (Raise e', self1, out1)
    end.

Definition emit (e : Effect) : M unit := fun self => (Ret tt, self, [e]).
Definition gets {A} (f : DeviceWrapper -> A) : M A := fun self => (Ret (f self), self, []).
Definition modify (f : DeviceWrapper -> DeviceWrapper) : M unit :=
  fun self => (Ret tt, f self, []).

Declare Scope py_scope.
Delimit Scope py_scope with py.
Notation "x <- c1 ;; c2" := (bind c1 (fun x => c2))
  (at level 100, c1 at next level, right associativity) : py_scope.
Notation "c1 ;; c2" := (bind c1 (fun _ => c2))
  (at level 100, right associativity) : py_scope.
Local Open Scope py_scope.

Definition result {A} (x : Res A * DeviceWrapper * list Effect) : Res A := fst (fst x).
Definition final {A} (x : Res A * DeviceWrapper * list Effect) : DeviceWrapper := snd (fst x).
Definition effects {A} (x : Res A * DeviceWrapper * list Effect) : list Effect := snd x.

(** ** [DeviceWrapper] *)

Definition set_connected (b : bool) (self : DeviceWrapper) : DeviceWrapper :=
  mkDeviceWrapper (_config_device self) (_environment_refresh_secs self)
    (mkDysonDevice b (dyson_listeners (libdyson self))).

Definition push_listener (cb : Callback) (self : DeviceWrapper) : DeviceWrapper :=
  mkDeviceWrapper (_config_device self) (_environment_refresh_secs self)
    (mkDysonDevice (dyson_connected (libdyson self))
                   (dyson_listeners (libdyson self) ++ [cb])).

Definition logging (lvl : Level) (fmt : string) (args : list string) : M unit :=
  emit (Log lvl fmt args).

Definition name : M string := gets (fun self => dev_name (_config_device self)).
Definition serial : M string := gets (fun self => dev_serial (_config_device self)).
Definition is_connected : M bool := gets (fun self => dyson_connected (libdyson self)).

Definition connect_default_retry : Z := 30.
Definition default_environment_refresh_secs : Z := 30.

Section Methods.
Variable lib : Libdyson.

(** [self.libdyson.connect(host)] *)
Definition libdyson_connect (host : string) : M unit :=
  emit (LibConnect host);;
  match connect_outcome lib with
  | ConnectOk => modify (set_connected true)
  | ConnectTimesOut => raise DysonConnectTimeout
  end.

(** [self.libdyson.request_environmental_data()] *)
Definition libdyson_request_environmental_data : M unit :=
  emit LibRequestEnvironmentalData;;
  match request_outcome lib with
  | RequestOk => ret tt
  | RequestHandleGone => raise AttributeError
  end.

(** [threading.Timer(secs, target).start()] *)
Definition timer_start (secs : Z) (target : TimerTarget) : M unit :=
  emit (TimerStart secs target).

Definition _refresh_timer : M unit :=
  secs <- gets _environment_refresh_secs;;
  timer_start secs timer_callback.

Definition connect (host : string) (retry_on_timeout_secs : Z) : M unit :=
  c <- is_connected;;
  if c then
    s <- serial;;
    logging INFO "Already connected to %s (%s); no need to reconnect." [host; s]
  else
    try_except
      (libdyson_connect host;;
       _refresh_timer)
      DysonConnectTimeout
      (s <- serial;;
       logging ERROR "Timeout connecting to %s (%s); will retry" [host; s];;
       timer_start retry_on_timeout_secs (connect_args host)).

Definition disconnect : M unit :=
  emit LibDisconnect;;
  modify (set_connected false).

Definition _timer_callback : M unit :=
  c <- is_connected;;
  if c then
    s <- serial;;
    logging DEBUG "Requesting updated environmental data from %s" [s];;
    try_except
      libdyson_request_environmental_data
      AttributeError
      (logging ERROR "Race with a disconnect? Skipping an iteration." []);;
    _refresh_timer
  else
    s <- serial;;
    logging DEBUG "Device %s is disconnected." [s].

(** A timer that fires calls its target; [connect_args host] is
    [self.connect(host)], so [retry_on_timeout_secs] takes its default. *)
Definition fire (target : TimerTarget) : M unit :=
  match target with
  | connect_args host => connect host connect_default_retry
  | timer_callback => _timer_callback
  end.
End Methods.

(** ** [ConnectionManager] *)

(** [str.upper()] on a serial; letters outside ASCII are left as they
    are. *)
Definition upper_ascii (c : ascii) : ascii :=
  let n := nat_of_ascii c in
  if (97 <=? n)%nat && (n <=? 122)%nat then ascii_of_nat (n - 32) else c.

Fixpoint upper (s : string) : string :=
  match s with
  | EmptyString => EmptyString
  | String c rest => String (upper_ascii c) (upper rest)
  end.

(** Truth value of the result of [dict.get]: [None] and the empty string
    are false. *)
Definition truthy (v : option string) : bool :=
  match v with
  | Some (String _ _) => true
  | _ => false
  end.

(** The double quote character of the two log formats below. *)
Definition dquote : string := String (ascii_of_nat 34) EmptyString.

Definition fmt_attempting_connection : string :=
  "Attempting connection to device " ++ dquote ++ "%s" ++ dquote
  ++ " (serial=%s) via configured IP %s".

Definition fmt_attempting_discovery : string :=
  "Attempting to discover device " ++ dquote ++ "%s" ++ dquote
  ++ " (serial=%s) via zeroconf".

Section Manager.
Variable lib : Libdyson.
Variable _hosts : gmap string string.

(** [device.libdyson.add_message_listener(callback_fn)] *)
Definition libdyson_add_message_listener (cb : Callback) : M unit :=
  emit (LibAddMessageListener cb);;
  modify (push_listener cb).

Definition _add_device (add_listener : bool) : M unit :=
  (if add_listener then libdyson_add_message_listener device_callback
   else ret tt);;
  s <- serial;;
  let manual_ip := _hosts !! upper s in
  if truthy manual_ip then
    n <- name;;
    logging INFO fmt_attempting_connection [n; s; default EmptyString manual_ip];;
    connect lib (default EmptyString manual_ip) connect_default_retry
  else
    n <- name;;
    logging INFO fmt_attempting_discovery [n; s];;
    emit (RegisterDevice discovery_callback).

Definition _discovery_callback (address : string) : M unit :=
  s <- serial;;
  logging INFO "Discovered %s on %s" [s; address];;
  connect lib address connect_default_retry.

Definition _device_callback (message : Message) : M unit :=
  s <- serial;;
  logging DEBUG "Received update from %s: %s" [s; Message_str message];;
  c <- is_connected;;
  if negb c then
    logging INFO "Device %s is now disconnected, clearing it and re-adding" [s];;
    disconnect;;
    emit StopDiscovery;;
    emit StartDiscovery;;
    _add_device false
  else
    let is_state := Message_eqb message STATE in
    let is_environ := Message_eqb message ENVIRONMENTAL in
    n <- name;;
    emit (UpdateFn n s is_state is_environ).
End Manager.

(** ** The running process

    The wrappers live on the heap and are reached through the closures
    handed to [libdyson], the discovery service and [threading.Timer];
    a reference is the position of the wrapper in [heap]. *)

Record Timer := mkTimer {
  timer_owner : nat;
  timer_secs : Z;
  timer_target : TimerTarget
}.

Record World := mkWorld {
  heap : list DeviceWrapper;
  timers : list Timer;
  trace : list (option nat * Effect)
}.

(** The timers a run of a method of wrapper [i] has started. *)
Fixpoint started (i : nat) (es : list Effect) : list Timer :=
  match es with
  | [] => []
  | TimerStart secs target :: rest => mkTimer i secs target :: started i rest
  | _ :: rest => started i rest
  end.

Definition tag (i : nat) (es : list Effect) : list (option nat * Effect) :=
  map (fun e => (Some i, e)) es.

(** [libdyson.get_device] gives a handle that is not connected and has
    no listener. *)
Definition _create_libdyson_device : DysonDevice := mkDysonDevice false [].

(** [DeviceWrapper(device)]; [environment_refresh_secs] takes its
    default. *)
Definition DeviceWrapper__init__ (device : Device) : DeviceWrapper :=
  mkDeviceWrapper device default_environment_refresh_secs _create_libdyson_device.

(** A callback of wrapper [i] runs to its end in the world. *)
Definition run_on (i : nat) (m : M unit) (w : World) : World :=
  match heap w !! i with
  | None => w
  | Some d =>
      match m d with
      | (_, d', es) =>
          mkWorld (<[i := d']> (heap w)) (timers w ++ started i es)
                  (trace w ++ tag i es)
      end
  end.

(** The loop of [ConnectionManager.__init__]; [libs i] is what [libdyson]
    does for the [i]-th wrapper. An exception leaves the loop. *)
Fixpoint add_devices (libs : nat -> Libdyson) (_hosts : gmap string string)
    (devices : list Device) (w : World) : Res unit * World :=
  match devices with
  | [] => (Ret tt, w)
  | device :: rest =>
      let i := length (heap w) in
      match _add_device (libs i) _hosts true (DeviceWrapper__init__ device) with
      | (r, d', es) =>
          let w' := mkWorld (heap w ++ [d']) (timers w ++ started i es)
                            (trace w ++ tag i es) in
          match r with
          | Ret _ => add_devices libs _hosts rest w'
          | Raise e => (Raise e, w')
          end
      end
  end.

Definition ConnectionManager__init__ (libs : nat -> Libdyson)
    (devices : list Device) (hosts : gmap string string) : Res unit * World :=
  add_devices libs hosts devices
    (mkWorld [] [] [(None, Log INFO "Starting discovery..." []);
                    (None, StartDiscovery)]).

(** What happens to a running manager: the discovery service finds device
    [i], the transport of device [i] hands a message to its listener, the
    [k]-th pending timer fires, or the transport of device [i] drops.
    Any pending timer may be the next to fire; its delay is kept in
    [timer_secs]. A handle becomes connected through [libdyson.connect]
    only. *)
Inductive Event :=
| Discovered (i : nat) (address : string)
| Delivered (i : nat) (message : Message)
| Fires (k : nat)
| LinkLost (i : nat).

Definition step (_hosts : gmap string string) (lib : Libdyson) (ev : Event)
    (w : World) : World :=
  match ev with
  | Discovered i address => run_on i (_discovery_callback lib address) w
  | Delivered i message => run_on i (_device_callback lib _hosts message) w
  | Fires k =>
      match timers w !! k with
      | None => w
      | Some t =>
          run_on (timer_owner t) (fire lib (timer_target t))
                 (mkWorld (heap w) (delete k (timers w)) (trace w))
      end
  | LinkLost i =>
      match heap w !! i with
      | None => w
      | Some d => mkWorld (<[i := set_connected false d]> (heap w)) (timers w) (trace w)
      end
  end.

Fixpoint run_events (_hosts : gmap string string) (evs : list (Libdyson * Event))
    (w : World) : World :=
  match evs with
  | [] => w
  | (lib, ev) :: rest => run_events _hosts rest (step _hosts lib ev w)
  end.

(** ** [main] *)

Record Args := mkArgs {
  port : Z;
  config : string;
  log_level : string;
  include_inactive_devices : bool
}.

(** Modelled from the spec: what [main] reads from a loaded
    [config.Config] of module [config], the Device Records and the Host
    Override Table. *)
Record Config := mkConfig {
  devices : list Device;
  hosts : gmap string string
}.

Inductive ProcessEffect :=
| Print (line : string)
| BasicConfig (level : Z)
| StartHttpServer (http_port : Z)
| Call (who : option nat) (e : Effect).

Inductive Outcome :=
| SysExit (status : Z)
| Uncaught (e : Exn)
| SleepsForever (w : World).

(** The exit status the parent process sees for [sys.exit(status)]. *)
Definition exit_status (status : Z) : Z := status mod 256.

Definition calls (tr : list (option nat * Effect)) : list ProcessEffect :=
  map (fun x => Call (fst x) (snd x)) tr.

Section Main.
(** [getattr(logging, name)]; [None] when it raises [AttributeError]. *)
Variable logging_getattr : string -> option Z.
(** [config.Config(path)]; [None] when it raises. *)
Variable config_Config : string -> option Config.
Variable libs : nat -> Libdyson.

Definition main (args : Args) : list ProcessEffect * Outcome :=
  match logging_getattr (log_level args) with
  | None =>
      ([Print ("Invalid --log_level: " ++ log_level args)], SysExit (-1))
  | Some level =>
      let t1 :=
        [BasicConfig level;
         Call None (Log INFO "Starting up on port=%s" [pretty (port args)])] in
      let t2 :=
        if include_inactive_devices args then
          t1 ++ [Call None (Log WARNING
            "--include_inactive_devices is now inoperative and will be removed in a future release" [])]
        else t1 in
      match config_Config (config args) with
      | None =>
          (t2 ++ [Call None (Log EXCEPTION "Could not load configuration: %s" [config args])],
           SysExit (-1))
      | Some cfg =>
          if (Z.of_nat (length (devices cfg)) =? 0)%Z then
            (t2 ++ [Call None (Log FATAL
               "No devices configured; please re-run this program with --create_device_cache." [])],
             SysExit (-2))
          else
            match ConnectionManager__init__ libs (devices cfg) (hosts cfg) with
            | (Ret _, w) =>
                (t2 ++ [StartHttpServer (port args)] ++ calls (trace w), SleepsForever w)
            | (Raise e, w) =>
                (t2 ++ [StartHttpServer (port args)] ++ calls (trace w), Uncaught e)
            end
      end
  end.
End Main.

(** ** Observations on effect lists *)

Definition count (p : Effect -> bool) (es : list Effect) : nat :=
  length (List.filter p es).

Definition is_lib_connect (e : Effect) : bool :=
  match e with LibConnect _ => true | _ => false end.
Definition is_lib_disconnect (e : Effect) : bool :=
  match e with LibDisconnect => true | _ => false end.
Definition is_request (e : Effect) : bool :=
  match e with LibRequestEnvironmentalData => true | _ => false end.
Definition is_add_listener (e : Effect) : bool :=
  match e with LibAddMessageListener _ => true | _ => false end.
Definition is_timer_start (e : Effect) : bool :=
  match e with TimerStart _ _ => true | _ => false end.
Definition is_start_discovery (e : Effect) : bool :=
  match e with StartDiscovery => true | _ => false end.
Definition is_stop_discovery (e : Effect) : bool :=
  match e with StopDiscovery => true | _ => false end.
Definition is_register (e : Effect) : bool :=
  match e with RegisterDevice _ => true | _ => false end.
Definition is_update (e : Effect) : bool :=
  match e with UpdateFn _ _ _ _ => true | _ => false end.
Definition connected (self : DeviceWrapper) : bool := dyson_connected (libdyson self).
Definition listeners (self : DeviceWrapper) : list Callback := dyson_listeners (libdyson self).
Definition serial_of (self : DeviceWrapper) : string := dev_serial (_config_device self).
Definition name_of (self : DeviceWrapper) : string := dev_name (_config_device self).

(** Pending tasks of wrapper [i]: retries of [connect] and poll tasks. *)
Definition is_retry_of (i : nat) (t : Timer) : bool :=
  Nat.eqb (timer_owner t) i &&
  match timer_target t with connect_args _ => true | timer_callback => false end.
Definition is_poll_of (i : nat) (t : Timer) : bool :=
  Nat.eqb (timer_owner t) i &&
  match timer_target t with connect_args _ => false | timer_callback => true end.

Definition connect_attempts (w : World) (i : nat) : nat :=
  length (List.filter (is_retry_of i) (timers w)).
Definition poll_tasks (w : World) (i : nat) : nat :=
  length (List.filter (is_poll_of i) (timers w)).

Definition connected_at (w : World) (i : nat) : bool :=
  match heap w !! i with
  | Some d => connected d
  | None => false
  end.

(** Sample data. *)
Definition living_room : Device :=
  mkDevice "Living Room" "ab1-xx-1234abcd" "secret" "455".
Definition bedroom : Device :=
  mkDevice "Bedroom" "NK6-EU-MHA0000A" "secret" "438".
Definition lib_ok : Libdyson := mkLibdyson ConnectOk RequestOk.
Definition lib_timeout : Libdyson := mkLibdyson ConnectTimesOut RequestOk.
Definition lib_gone : Libdyson := mkLibdyson ConnectOk RequestHandleGone.
Definition manual_hosts : gmap string string :=
  {[ "AB1-XX-1234ABCD" := "10.0.0.5" ]}.
Definition blank_hosts : gmap string string :=
  {[ "AB1-XX-1234ABCD" := EmptyString ]}.
Definition up (self : DeviceWrapper) : DeviceWrapper := set_connected true self.

(** [n] attempts in a row that all time out: the first is the call [m],
    each later one is the firing of the retry timer the attempt before it
    started. The result lists the delays of those retry timers in the
    order they are started. *)
Fixpoint retry_delays (lib : Libdyson) (n : nat) (m : M unit)
    (self : DeviceWrapper) : list Z :=
  match n with
  | O => []
  | S k =>
      match m self with
      | (_, self', es) =>
          match started 0 es with
          | [t] => timer_secs t :: retry_delays lib k (fire lib (timer_target t)) self'
          | _ => []
          end
      end
  end.

(** The calls made on behalf of wrapper [i], in order. *)
Fixpoint calls_of (i : nat) (tr : list (option nat * Effect)) : list Effect :=
  match tr with
  | [] => []
  | (Some j, e) :: rest => if Nat.eqb j i then e :: calls_of i rest else calls_of i rest
  | (None, _) :: rest => calls_of i rest
  end.

Definition is_discovery_restart (e : Effect) : bool :=
  is_stop_discovery e || is_start_discovery e.








Definition no_hosts : gmap string string := ∅.

(** A device is discovered and connects, its link drops, the dispatch of
    the next message re-registers it, and it is discovered again before
    the poll task of the first connection has fired. *)
Definition reconnect_run : list (Libdyson * Event) :=
  [(lib_ok, Discovered 0 "10.0.0.9");
   (lib_ok, LinkLost 0);
   (lib_ok, Delivered 0 STATE);
   (lib_ok, Discovered 0 "10.0.0.9")].

Definition started_up : World :=
  snd (ConnectionManager__init__ (fun _ => lib_ok) [living_room] no_hosts).

(** ** Further observations *)

(** Calls that open or close a session, touch the discovery service or
    add a listener. *)
Definition is_session_change (e : Effect) : bool :=
  is_lib_connect e || is_lib_disconnect e || is_discovery_restart e
  || is_register e || is_add_listener e.

(** The starts and stops of the discovery service in a trace, in order. *)
Definition restarts (tr : list (option nat * Effect)) : list Effect :=
  List.filter is_discovery_restart (map snd tr).

(** The wrapper whose callback an event runs, or whose link it drops. *)
Definition target (w : World) (ev : Event) : option nat :=
  match ev with
  | Discovered i _ | Delivered i _ | LinkLost i => Some i
  | Fires k =>
      match timers w !! k with
      | Some t => Some (timer_owner t)
      | None => None
      end
  end.

(** The messages the events hand to the listener of wrapper [i]. *)
Definition delivers (i : nat) (ev : Event) : bool :=
  match ev with
  | Delivered j _ => Nat.eqb j i
  | _ => false
  end.

Definition deliveries_for (i : nat) (evs : list (Libdyson * Event)) : nat :=
  length (List.filter (fun x => delivers i (snd x)) evs).

Definition sample_args : Args := mkArgs 8091 "config.ini" "INFO" false.

(** What a wrapper keeps for life: its device record, its refresh
    interval and its listeners. *)
Definition same_identity (a b : DeviceWrapper) : Prop :=
  _config_device b = _config_device a /\
  _environment_refresh_secs b = _environment_refresh_secs a /\
  listeners b = listeners a.

Definition stop_start : list Effect := [StopDiscovery; StartDiscovery].

(** [args] with [--include_inactive_devices] given or not. *)
Definition with_flag (b : bool) (args : Args) : Args :=
  mkArgs (port args) (config args) (log_level args) b.

Definition inactive_warning : ProcessEffect :=
  Call None (Log WARNING
    "--include_inactive_devices is now inoperative and will be removed in a future release" []).



(** The callback an event runs and the wrapper it runs on. *)
Definition callback_of (_hosts : gmap string string) (lib : Libdyson)
    (w : World) (ev : Event) : option (nat * M unit) :=
  match ev with
  | Discovered i address => Some (i, _discovery_callback lib address)
  | Delivered i message => Some (i, _device_callback lib _hosts message)
  | Fires k =>
      match timers w !! k with
      | Some t => Some (timer_owner t, fire lib (timer_target t))
      | None => None
      end
  | LinkLost _ => None
  end.

(** The host table has a usable address for the serial of [self]. *)
Definition manual (_hosts : gmap string string) (self : DeviceWrapper) : bool :=
  truthy (_hosts !! upper (serial_of self)).

(** The addresses the discovery service reports for wrapper [i]. *)
Fixpoint discovered_for (i : nat) (evs : list (Libdyson * Event)) : list string :=
  match evs with
  | [] => []
  | (_, Discovered j address) :: rest =>
      if Nat.eqb j i then address :: discovered_for i rest else discovered_for i rest
  | _ :: rest => discovered_for i rest
  end.

(** Every host wrapper [i] has tried or is waiting to retry is in [A]. *)
Definition hosts_known (A : list string) (i : nat) (w : World) : Prop :=
  (forall t h, In t (timers w) -> timer_owner t = i ->
               timer_target t = connect_args h -> In h A) /\
  (forall h, In (LibConnect h) (calls_of i (trace w)) -> In h A).

(** The address the host table gives for a device record, if usable. *)
Definition manual_address (_hosts : gmap string string) (d : Device) : list string :=
  if truthy (_hosts !! upper (dev_serial d))
  then [default EmptyString (_hosts !! upper (dev_serial d))]
  else [].

(** The hosts a callback run with effects [es] attempts or schedules a retry for. *)
Definition hosts_of (j : nat) (es : list Effect) (h : string) : Prop :=
  In (LibConnect h) es \/
  exists t, In t (started j es) /\ timer_target t = connect_args h.


(** * Properties *)

(** Unfolds the monad and the methods; lookups in the host table and
    arithmetic stay folded. *)
Ltac run_method :=
  cbv beta iota zeta delta
    [bind ret raise try_except emit gets modify logging name serial
     is_connected libdyson_connect libdyson_request_environmental_data
     timer_start _refresh_timer connect disconnect _timer_callback fire
     libdyson_add_message_listener _add_device _discovery_callback
     _device_callback result final effects connected listeners serial_of
     name_of set_connected push_listener Exn_eqb negb fst snd app
     dyson_connected dyson_listeners libdyson _config_device
     _environment_refresh_secs connect_outcome
     request_outcome count List.filter length is_lib_connect
     is_lib_disconnect is_request is_add_listener is_timer_start
     is_start_discovery is_stop_discovery is_register is_update
     orb andb started].

Ltac open_wrapper self :=
  let cfg := fresh "cfg" in
  let secs := fresh "secs" in
  let c := fresh "c" in
  let ls := fresh "ls" in
  destruct self as [cfg secs [c ls]];
  cbv [connected dyson_connected libdyson] in *.

Ltac summarise :=
  run_method; repeat split; intros; cbn in *;
  repeat match goal with
         | H : False |- _ => destruct H
         | H : _ \/ _ |- _ => destruct H as [H|H]
         | H : mkTimer _ _ _ = ?t |- _ => subst t; cbn in *
         | H : false = true |- _ => discriminate H
         end;
  try reflexivity; try discriminate; try (cbn; lia);
  try (now left); try (right; eexists; reflexivity).

Example upper_serial : upper "ab1-xx-1234abcd" = "AB1-XX-1234ABCD".
Proof. reflexivity. Qed.

Example manual_hosts_lookup :
  manual_hosts !! upper (dev_serial living_room) = Some "10.0.0.5".
Proof. reflexivity. Qed.



Lemma add_device_returns lib hosts b self :
  result (_add_device lib hosts b self) = Ret tt.
Proof.
  open_wrapper self. destruct b; run_method;
    destruct (truthy (hosts !! upper (dev_serial cfg)));
    destruct c, lib as [[] ro]; reflexivity.
Qed.

(** C5. [connect] on a wrapper that is connected only writes its log
    line: the wrapper is unchanged, [libdyson.connect] is not called (no
    new session) and no timer is started (no poll task, no retry). *)
Theorem connect_when_connected_is_noop lib host r self :
  connected self = true ->
  let out := connect lib host r self in
  out = (Ret tt, self,
         [Log INFO "Already connected to %s (%s); no need to reconnect."
              [host; serial_of self]]) /\
  final out = self /\
  count is_lib_connect (effects out) = 0%nat /\
  count is_timer_start (effects out) = 0%nat.
Proof.
  intros H. open_wrapper self. subst c. repeat split.
Qed.

Lemma connect_when_connected_is_noop_witness :
  connect lib_ok "10.0.0.5" 30 (up (DeviceWrapper__init__ living_room)) =
    (Ret tt, up (DeviceWrapper__init__ living_room),
     [Log INFO "Already connected to %s (%s); no need to reconnect."
          ["10.0.0.5"; "ab1-xx-1234abcd"]]).
Proof.
  apply (connect_when_connected_is_noop lib_ok "10.0.0.5" 30
           (up (DeviceWrapper__init__ living_room))).
  reflexivity.
Defined.

(** C3. A firing of the polling task. While the device is connected it
    issues exactly one request for environmental data and starts the next
    timer with the same interval; when the handle has been torn down under
    the request ([AttributeError]) that is logged as an error, nothing
    else is done in this iteration, the next timer is still started and the
    callback returns normally. When the device is not connected it only
    logs: no request, no new timer. *)
Theorem timer_callback_polls lib self :
  let out := _timer_callback lib self in
  let next := TimerStart (_environment_refresh_secs self) timer_callback in
  let asking :=
    Log DEBUG "Requesting updated environmental data from %s" [serial_of self] in
  result out = Ret tt /\ final out = self /\
  (connected self = true ->
     count is_request (effects out) = 1%nat /\
     List.filter is_timer_start (effects out) = [next]) /\
  (connected self = true -> request_outcome lib = RequestOk ->
     effects out = [asking; LibRequestEnvironmentalData; next]) /\
  (connected self = true -> request_outcome lib = RequestHandleGone ->
     effects out =
       [asking; LibRequestEnvironmentalData;
        Log ERROR "Race with a disconnect? Skipping an iteration." []; next]) /\
  (connected self = false ->
     effects out = [Log DEBUG "Device %s is disconnected." [serial_of self]] /\
     count is_request (effects out) = 0%nat /\
     count is_timer_start (effects out) = 0%nat).
Proof.
  open_wrapper self. destruct lib as [co []], c; cbn;
    repeat split; intros; try discriminate; reflexivity.
Qed.

Lemma timer_callback_polls_witness :
  effects (_timer_callback lib_gone (up (DeviceWrapper__init__ living_room))) =
    [Log DEBUG "Requesting updated environmental data from %s" ["ab1-xx-1234abcd"];
     LibRequestEnvironmentalData;
     Log ERROR "Race with a disconnect? Skipping an iteration." [];
     TimerStart 30 timer_callback] /\
  count is_request
    (effects (_timer_callback lib_ok (up (DeviceWrapper__init__ living_room)))) = 1%nat /\
  effects (_timer_callback lib_ok (up (DeviceWrapper__init__ living_room))) =
    [Log DEBUG "Requesting updated environmental data from %s" ["ab1-xx-1234abcd"];
     LibRequestEnvironmentalData;
     TimerStart 30 timer_callback] /\
  count is_request
    (effects (_timer_callback lib_ok (DeviceWrapper__init__ living_room))) = 0%nat.
Proof.
  pose proof (timer_callback_polls lib_gone (up (DeviceWrapper__init__ living_room)))
    as (_ & _ & _ & _ & Hgone & _).
  pose proof (timer_callback_polls lib_ok (up (DeviceWrapper__init__ living_room)))
    as (_ & _ & Hone & Hok & _ & _).
  pose proof (timer_callback_polls lib_ok (DeviceWrapper__init__ living_room))
    as (_ & _ & _ & _ & _ & Hoff).
  split; [exact (Hgone eq_refl eq_refl)|].
  split; [exact (proj1 (Hone eq_refl))|].
  split; [exact (Hok eq_refl eq_refl)|].
  exact (proj1 (proj2 (Hoff eq_refl))).
Defined.

(** C4. A message dispatched while the device is connected is forwarded
    to [update_fn] exactly once, with the device's name and handle, and
    with flags fixed by the kind of the message: state gives
    (true, false), environmental gives (false, true), anything else
    (false, false); the flags are never both true. *)
Theorem device_callback_classifies lib hosts message self :
  connected self = true ->
  let out := _device_callback lib hosts message self in
  exists is_state is_environmental : bool,
    effects out =
      [Log DEBUG "Received update from %s: %s" [serial_of self; Message_str message];
       UpdateFn (name_of self) (serial_of self) is_state is_environmental] /\
    result out = Ret tt /\ final out = self /\
    (is_state, is_environmental) =
      match message with
      | STATE => (true, false)
      | ENVIRONMENTAL => (false, true)
      | OtherMessage _ => (false, false)
      end /\
    is_state && is_environmental = false.
Proof.
  intros H. open_wrapper self. subst c.
  exists (Message_eqb message STATE), (Message_eqb message ENVIRONMENTAL).
  destruct message; repeat split.
Qed.

Lemma device_callback_classifies_witness :
  exists is_state is_environmental : bool,
    effects (_device_callback lib_ok manual_hosts ENVIRONMENTAL
               (up (DeviceWrapper__init__ living_room))) =
      [Log DEBUG "Received update from %s: %s"
           ["ab1-xx-1234abcd"; "MessageType.ENVIRONMENTAL"];
       UpdateFn "Living Room" "ab1-xx-1234abcd" is_state is_environmental] /\
    (is_state, is_environmental) = (false, true).
Proof.
  destruct (device_callback_classifies lib_ok manual_hosts ENVIRONMENTAL
              (up (DeviceWrapper__init__ living_room)) eq_refl)
    as (s & e & Heff & _ & _ & Hflags & _).
  exists s, e. split; [exact Heff | exact Hflags].
Defined.




(** What [connect] does when the attempt times out. *)
Lemma connect_timeout lib host r self :
  connected self = false ->
  connect_outcome lib = ConnectTimesOut ->
  connect lib host r self =
    (Ret tt, self,
     [LibConnect host;
      Log ERROR "Timeout connecting to %s (%s); will retry" [host; serial_of self];
      TimerStart r (connect_args host)]).
Proof.
  intros H Hlib. open_wrapper self. subst c.
  destruct lib as [co ro]. simpl in Hlib. subst co. reflexivity.
Qed.

Lemma retry_delays_default lib host self n :
  connected self = false ->
  connect_outcome lib = ConnectTimesOut ->
  retry_delays lib n (connect lib host connect_default_retry) self =
    repeat connect_default_retry n.
Proof.
  intros H Hlib. induction n as [|n IH]; [reflexivity|].
  cbn [retry_delays]. rewrite (connect_timeout _ _ _ _ H Hlib).
  cbn [started timer_secs timer_target fire repeat]. now rewrite IH.
Qed.

(** C2, evaluated: [connect(host, 5)] whose attempts keep timing out
    waits 5 seconds before the first retry and 30 seconds, not 5, before
    every later one. *)
Theorem connect_retry_interval_not_kept :
  retry_delays lib_timeout 3 (connect lib_timeout "10.0.0.5" 5)
    (DeviceWrapper__init__ living_room) = [5; 30; 30].
Proof. reflexivity. Qed.

(** C10. When [connect(host, r)] times out, the one timer it starts has
    delay [r] and calls [connect] with [host] alone, so the retry runs
    with the default interval of 30 seconds; as long as the attempts keep
    timing out, every later retry is started with delay 30, whatever [r]
    was. *)
Theorem connect_retry_uses_default_interval lib host r self n :
  connected self = false ->
  connect_outcome lib = ConnectTimesOut ->
  List.filter is_timer_start (effects (connect lib host r self)) =
    [TimerStart r (connect_args host)] /\
  fire lib (connect_args host) = connect lib host 30 /\
  retry_delays lib (S n) (connect lib host r) self = r :: repeat 30 n.
Proof.
  intros H Hlib. split; [|split].
  - now rewrite (connect_timeout _ _ _ _ H Hlib).
  - reflexivity.
  - cbn [retry_delays]. rewrite (connect_timeout _ _ _ _ H Hlib).
    cbn [started timer_secs timer_target fire].
    now rewrite (retry_delays_default _ _ _ _ H Hlib).
Qed.

Lemma connect_retry_uses_default_interval_witness :
  retry_delays lib_timeout 4 (connect lib_timeout "10.0.0.5" 5)
    (DeviceWrapper__init__ living_room) = [5; 30; 30; 30].
Proof.
  apply (connect_retry_uses_default_interval lib_timeout "10.0.0.5" 5
           (DeviceWrapper__init__ living_room) 3); reflexivity.
Defined.

(** C7. With a valid log level and a configuration that loads with no
    device, [main] ends in [sys.exit(-2)]. That status differs from the
    [sys.exit(-1)] of a configuration that fails to load, also as the
    parent process sees them, and up to the exit [main] has only set up
    logging and logged: the metrics server is not started, discovery is
    not started, no device is registered and no connection is attempted. *)
Theorem main_exits_without_devices logging_getattr config_Config libs args level cfg :
  logging_getattr (log_level args) = Some level ->
  config_Config (config args) = Some cfg ->
  devices cfg = [] ->
  let out := main logging_getattr config_Config libs args in
  snd out = SysExit (-2) /\
  (forall config_fails args',
     logging_getattr (log_level args') = Some level ->
     config_fails (config args') = None ->
     snd (main logging_getattr config_fails libs args') = SysExit (-1)) /\
  -2 <> -1 /\ exit_status (-2) <> exit_status (-1) /\
  (forall x, In x (fst out) ->
     match x with
     | BasicConfig _ => True
     | Call None (Log _ _ _) => True
     | _ => False
     end) /\
  (forall who e, In (Call who e) (fst out) ->
     is_start_discovery e = false /\ is_register e = false /\
     is_lib_connect e = false).
Proof.
  intros Hlevel Hcfg Hdev out. subst out. unfold main.
  rewrite Hlevel, Hcfg, Hdev. cbn [length Z.of_nat Z.eqb fst snd].
  assert (Hshape : forall x,
    In x ((if include_inactive_devices args
           then [BasicConfig level;
                 Call None (Log INFO "Starting up on port=%s" [pretty (port args)])] ++
                [Call None (Log WARNING
                   "--include_inactive_devices is now inoperative and will be removed in a future release" [])]
           else [BasicConfig level;
                 Call None (Log INFO "Starting up on port=%s" [pretty (port args)])]) ++
          [Call None (Log FATAL
             "No devices configured; please re-run this program with --create_device_cache." [])]) ->
    match x with
    | BasicConfig _ => True
    | Call None (Log _ _ _) => True
    | _ => False
    end).
  { intros x Hx. destruct (include_inactive_devices args); cbn in Hx;
      repeat (destruct Hx as [<- | Hx]; [exact I|]); destruct Hx. }
  split; [reflexivity|]. split; [|split; [|split; [|split]]].
  - intros config_fails args' Hl Hc. unfold main. now rewrite Hl, Hc.
  - discriminate.
  - vm_compute. discriminate.
  - exact Hshape.
  - intros who e Hin. apply Hshape in Hin. destruct who; [destruct Hin|].
    destruct e; try destruct Hin. repeat split.
Qed.

Lemma main_exits_without_devices_witness :
  snd (main (fun _ => Some 20) (fun _ => Some (mkConfig [] manual_hosts))
            (fun _ => lib_ok) (mkArgs 8091 "config.ini" "INFO" false)) =
    SysExit (-2).
Proof.
  apply (main_exits_without_devices (fun _ => Some 20)
           (fun _ => Some (mkConfig [] manual_hosts)) (fun _ => lib_ok)
           (mkArgs 8091 "config.ini" "INFO" false) 20 (mkConfig [] manual_hosts));
    reflexivity.
Defined.

(** ** Startup *)

Lemma calls_of_app i tr1 tr2 :
  calls_of i (tr1 ++ tr2) = calls_of i tr1 ++ calls_of i tr2.
Proof.
  induction tr1 as [|[[j|] e] tr1 IH]; cbn [calls_of app]; [reflexivity| |exact IH].
  destruct (Nat.eqb j i); [cbn [app]; now rewrite IH | exact IH].
Qed.

Lemma calls_of_tag_same i es : calls_of i (tag i es) = es.
Proof.
  induction es as [|e es IH]; [reflexivity|].
  cbn [tag map calls_of]. rewrite Nat.eqb_refl. f_equal. exact IH.
Qed.

Lemma calls_of_tag_other i j es : j <> i -> calls_of i (tag j es) = [].
Proof.
  intros Hne. induction es as [|e es IH]; [reflexivity|].
  cbn [tag map calls_of]. destruct (Nat.eqb_spec j i); [contradiction|exact IH].
Qed.

Lemma add_devices_spec libs hosts ds :
  forall w,
  exists w',
    add_devices libs hosts ds w = (Ret tt, w') /\
    length (heap w') = (length (heap w) + length ds)%nat /\
    (forall j, (j < length (heap w))%nat ->
       heap w' !! j = heap w !! j /\
       calls_of j (trace w') = calls_of j (trace w)) /\
    (forall k d, ds !! k = Some d ->
       let i := (length (heap w) + k)%nat in
       let out := _add_device (libs i) hosts true (DeviceWrapper__init__ d) in
       heap w' !! i = Some (final out) /\
       calls_of i (trace w') = calls_of i (trace w) ++ effects out).
Proof.
  induction ds as [|d ds IH]; intros w.
  - exists w. cbn [add_devices length]. split; [reflexivity|].
    split; [lia|]. split; [intros j _; split; reflexivity|].
    intros k d Hk. rewrite lookup_nil in Hk. discriminate.
  - cbn [add_devices].
    pose proof (add_device_returns (libs (length (heap w))) hosts true
                  (DeviceWrapper__init__ d)) as Hret.
    destruct (_add_device (libs (length (heap w))) hosts true
                (DeviceWrapper__init__ d)) as [[r d'] es] eqn:Hrun.
    cbv [result fst] in Hret. subst r.
    set (w1 := mkWorld (heap w ++ [d']) (timers w ++ started (length (heap w)) es)
                       (trace w ++ tag (length (heap w)) es)).
    destruct (IH w1) as (w' & Hadd & Hlen & Hold & Hnew).
    assert (Hlen1 : length (heap w1) = S (length (heap w))).
    { cbn [w1 heap]. rewrite length_app. cbn [length]. lia. }
    exists w'. split; [exact Hadd|]. split; [|split].
    + rewrite Hlen, Hlen1. cbn [length]. lia.
    + intros j Hj. destruct (Hold j) as [Hh Hc]; [lia|].
      rewrite Hh, Hc. cbn [w1 heap trace]. split.
      * now rewrite lookup_app_l.
      * rewrite calls_of_app, calls_of_tag_other by lia. now rewrite app_nil_r.
    + intros k d0 Hk. destruct k as [|k].
      * cbn in Hk. injection Hk as <-. cbn zeta.
        rewrite Nat.add_0_r, Hrun. cbv [final effects fst snd].
        destruct (Hold (length (heap w))) as [Hh Hc]; [lia|].
        rewrite Hh, Hc. cbn [w1 heap trace]. split.
        -- rewrite lookup_app_r by lia. now rewrite Nat.sub_diag.
        -- now rewrite calls_of_app, calls_of_tag_same.
      * cbn in Hk. specialize (Hnew k d0 Hk). cbn zeta in *.
        rewrite Hlen1 in Hnew.
        replace (length (heap w) + S k)%nat with (S (length (heap w)) + k)%nat by lia.
        destruct Hnew as [Hh Hc]. split; [exact Hh|].
        rewrite Hc. f_equal. cbn [w1 trace].
        rewrite calls_of_app, calls_of_tag_other by lia. now rewrite app_nil_r.
Qed.

Lemma discovery_callback_connects lib address self :
  _discovery_callback lib address self =
    (result (connect lib address connect_default_retry self),
     final (connect lib address connect_default_retry self),
     Log INFO "Discovered %s on %s" [serial_of self; address]
       :: effects (connect lib address connect_default_retry self)).
Proof.
  open_wrapper self. destruct c, lib as [[] ro]; reflexivity.
Qed.

Lemma add_device_fresh lib hosts d :
  let listening := push_listener device_callback (DeviceWrapper__init__ d) in
  let manual_ip := hosts !! upper (dev_serial d) in
  let out := _add_device lib hosts true (DeviceWrapper__init__ d) in
  effects out =
    LibAddMessageListener device_callback ::
    (if truthy manual_ip then
       Log INFO fmt_attempting_connection
           [dev_name d; dev_serial d; default EmptyString manual_ip]
       :: effects (connect lib (default EmptyString manual_ip)
                     connect_default_retry listening)
     else
       [Log INFO fmt_attempting_discovery [dev_name d; dev_serial d];
        RegisterDevice discovery_callback]) /\
  _config_device (final out) = d /\
  listeners (final out) = [device_callback].
Proof.
  cbv [DeviceWrapper__init__ _create_libdyson_device]. run_method.
  destruct (truthy (hosts !! upper (dev_serial d)));
    destruct lib as [[] ro]; repeat split.
Qed.

Lemma connect_fresh_calls_libdyson lib host r self :
  connected self = false ->
  List.filter is_lib_connect (effects (connect lib host r self)) = [LibConnect host] /\
  count is_register (effects (connect lib host r self)) = 0%nat /\
  count is_add_listener (effects (connect lib host r self)) = 0%nat.
Proof.
  intros H. open_wrapper self. subst c. destruct lib as [[] ro]; repeat split.
Qed.

(** C8, as the specification has it, fails for a host table that holds
    the serial with an empty address: the device is in the table, yet it is
    registered with discovery and no connection is attempted. *)
Lemma startup_blank_address_is_discovered :
  blank_hosts !! upper (dev_serial living_room) = Some EmptyString /\
  calls_of 0 (trace (snd (ConnectionManager__init__ (fun _ => lib_ok)
                            [living_room] blank_hosts))) =
    [LibAddMessageListener device_callback;
     Log INFO fmt_attempting_discovery ["Living Room"; "ab1-xx-1234abcd"];
     RegisterDevice discovery_callback] /\
  count is_lib_connect
    (calls_of 0 (trace (snd (ConnectionManager__init__ (fun _ => lib_ok)
                               [living_room] blank_hosts)))) = 0%nat.
Proof. vm_compute. repeat split. Qed.

(** C8 (amended). [ConnectionManager.__init__] builds one wrapper per
    configured device, in order, and adds exactly one message listener to
    it. Then, when the host table holds a non-empty address for the
    upper-cased serial, it calls [connect] on that address (one
    [libdyson.connect], nothing registered); otherwise, also when the
    table holds an empty address, it registers the device with discovery
    once, with the discovery callback. That callback, called with an
    address, logs and calls [connect] on the address. *)
Theorem startup_adds_each_device libs ds hosts :
  exists w,
    ConnectionManager__init__ libs ds hosts = (Ret tt, w) /\
    length (heap w) = length ds /\
    (forall i d, ds !! i = Some d ->
       let manual_ip := hosts !! upper (dev_serial d) in
       let made := calls_of i (trace w) in
       exists self,
         heap w !! i = Some self /\ _config_device self = d /\
         listeners self = [device_callback] /\
         List.filter is_add_listener made = [LibAddMessageListener device_callback] /\
         (truthy manual_ip = true ->
            made =
              LibAddMessageListener device_callback ::
              Log INFO fmt_attempting_connection
                  [dev_name d; dev_serial d; default EmptyString manual_ip] ::
              effects (connect (libs i) (default EmptyString manual_ip)
                         connect_default_retry
                         (push_listener device_callback (DeviceWrapper__init__ d))) /\
            List.filter is_lib_connect made =
              [LibConnect (default EmptyString manual_ip)] /\
            count is_register made = 0%nat) /\
         (truthy manual_ip = false ->
            made =
              [LibAddMessageListener device_callback;
               Log INFO fmt_attempting_discovery [dev_name d; dev_serial d];
               RegisterDevice discovery_callback])) /\
    (forall lib address self,
       effects (_discovery_callback lib address self) =
         Log INFO "Discovered %s on %s" [serial_of self; address]
           :: effects (connect lib address connect_default_retry self) /\
       final (_discovery_callback lib address self) =
         final (connect lib address connect_default_retry self)).
Proof.
  unfold ConnectionManager__init__.
  set (w0 := mkWorld [] [] [(None, Log INFO "Starting discovery..." []);
                            (None, StartDiscovery)]).
  destruct (add_devices_spec libs hosts ds w0) as (w & Hadd & Hlen & _ & Hnew).
  exists w. split; [exact Hadd|]. split; [exact Hlen|]. split.
  - intros i d Hi. set (manual_ip := hosts !! upper (dev_serial d)).
    set (made := calls_of i (trace w)). specialize (Hnew i d Hi).
    cbn zeta in Hnew. cbn [w0 heap trace length calls_of Nat.add app] in Hnew.
    destruct Hnew as [Hh Hc].
    destruct (add_device_fresh (libs i) hosts d) as (Heff & Hcfg & Hls).
    cbv zeta in Heff. fold manual_ip in Heff.
    exists (final (_add_device (libs i) hosts true (DeviceWrapper__init__ d))).
    split; [exact Hh|]. split; [exact Hcfg|]. split; [exact Hls|].
    subst made. rewrite Hc, Heff. clear Hc Heff.
    destruct (connect_fresh_calls_libdyson (libs i) (default EmptyString manual_ip)
                connect_default_retry
                (push_listener device_callback (DeviceWrapper__init__ d)) eq_refl)
      as (Hconn & Hreg & Hadd').
    destruct (truthy manual_ip).
    + cbn [List.filter is_add_listener is_lib_connect is_register count].
      unfold count in Hreg, Hadd'. apply length_zero_iff_nil in Hadd'.
      rewrite Hadd', Hconn. repeat split; try discriminate. exact Hreg.
    + repeat split; intros; try discriminate; reflexivity.
  - intros lib address self. rewrite discovery_callback_connects. split; reflexivity.
Qed.

Lemma startup_adds_each_device_witness :
  exists w,
    ConnectionManager__init__ (fun _ => lib_ok) [living_room; bedroom] manual_hosts =
      (Ret tt, w) /\
    List.filter is_lib_connect (calls_of 0 (trace w)) = [LibConnect "10.0.0.5"] /\
    calls_of 1 (trace w) =
      [LibAddMessageListener device_callback;
       Log INFO fmt_attempting_discovery ["Bedroom"; "NK6-EU-MHA0000A"];
       RegisterDevice discovery_callback].
Proof.
  destruct (startup_adds_each_device (fun _ => lib_ok) [living_room; bedroom]
              manual_hosts) as (w & Hinit & _ & Hdev & _).
  exists w. split; [exact Hinit|].
  destruct (Hdev 0%nat living_room eq_refl) as (_ & _ & _ & _ & _ & Hman & _).
  destruct (Hdev 1%nat bedroom eq_refl) as (_ & _ & _ & _ & _ & _ & Hdisc).
  split; [exact (proj1 (proj2 (Hman eq_refl))) | exact (Hdisc eq_refl)].
Defined.

(** ** Pending tasks of a running manager *)







(** The polling task leaves the wrapper as it is and, on a connected
    device, starts its successor. *)
Lemma timer_callback_reschedules lib j self :
  final (_timer_callback lib self) = self /\
  (connected self = true ->
   started j (effects (_timer_callback lib self)) =
     [mkTimer j (_environment_refresh_secs self) timer_callback]).
Proof.
  open_wrapper self. destruct c, lib as [co []]; summarise.
Qed.

Lemma length_filter_app {A} (p : A -> bool) (l1 l2 : list A) :
  length (List.filter p (l1 ++ l2)) =
    (length (List.filter p l1) + length (List.filter p l2))%nat.
Proof. now rewrite List.filter_app, length_app. Qed.

Lemma length_filter_delete {A} (p : A -> bool) (l : list A) k t :
  l !! k = Some t ->
  length (List.filter p l) =
    (length (List.filter p (delete k l)) + (if p t then 1 else 0))%nat.
Proof.
  revert k. induction l as [|x l IH]; intros k Hk.
  - rewrite lookup_nil in Hk. discriminate.
  - destruct k as [|k]; cbn in Hk.
    + injection Hk as ->. change (delete 0%nat (t :: l)) with l.
      cbn [List.filter]. destruct (p t); cbn [length]; lia.
    + change (delete (S k) (x :: l)) with (x :: delete k l).
      specialize (IH k Hk). cbn [List.filter].
      destruct (p x); cbn [length]; lia.
Qed.

Lemma started_owner j es t : In t (started j es) -> timer_owner t = j.
Proof.
  induction es as [|e es IH]; [intros []|].
  destruct e; cbn [started]; try exact IH.
  intros [<-|Hin]; [reflexivity | exact (IH Hin)].
Qed.






Lemma run_on_none j m w : heap w !! j = None -> run_on j m w = w.
Proof. intros H. unfold run_on. now rewrite H. Qed.

Lemma run_on_some j m w d :
  heap w !! j = Some d ->
  run_on j m w =
    mkWorld (<[j := final (m d)]> (heap w))
            (timers w ++ started j (effects (m d)))
            (trace w ++ tag j (effects (m d))).
Proof.
  intros H. unfold run_on. rewrite H. now destruct (m d) as [[r d'] es].
Qed.


















(** * Further properties *)

(** X1. [connect] on a wrapper that is not connected, when
    [libdyson.connect] returns: the session is opened once, the wrapper is
    connected afterwards and exactly one timer is started, the poll task
    with the wrapper's refresh interval; [retry_on_timeout_secs] plays no
    part and nothing is logged. *)
Theorem connect_success lib host r self :
  connected self = false ->
  connect_outcome lib = ConnectOk ->
  connect lib host r self =
    (Ret tt, set_connected true self,
     [LibConnect host;
      TimerStart (_environment_refresh_secs self) timer_callback]).
Proof.
  intros H Hlib. open_wrapper self. subst c.
  destruct lib as [co ro]. simpl in Hlib. subst co. reflexivity.
Qed.

Lemma connect_success_witness :
  connect lib_ok "10.0.0.5" 5 (DeviceWrapper__init__ living_room) =
    (Ret tt, up (DeviceWrapper__init__ living_room),
     [LibConnect "10.0.0.5"; TimerStart 30 timer_callback]).
Proof.
  apply (connect_success lib_ok "10.0.0.5" 5 (DeviceWrapper__init__ living_room));
    reflexivity.
Defined.





(** X3. On a connected device no callback ([connect], the discovery
    callback, the message dispatch, a timer firing) opens or closes a
    session, restarts discovery, registers the device or adds a listener,
    and the device is still connected afterwards: [libdyson.disconnect] in
    particular is never called on a live session. *)
Theorem callbacks_leave_a_live_session lib hosts self :
  connected self = true ->
  (forall m,
     (exists host r, m = connect lib host r) \/
     (exists address, m = _discovery_callback lib address) \/
     (exists message, m = _device_callback lib hosts message) \/
     (exists target, m = fire lib target) ->
     count is_session_change (effects (m self)) = 0%nat /\
     connected (final (m self)) = true /\
     listeners (final (m self)) = listeners self).
Proof.
  intros H m Hm. open_wrapper self. subst c.
  destruct Hm as [(host & r & ->)|[(address & ->)|[(message & ->)|(t & ->)]]].
  - repeat split.
  - repeat split.
  - repeat split.
  - destruct t, lib as [co []]; repeat split.
Qed.

Lemma callbacks_leave_a_live_session_witness :
  count is_session_change
    (effects (_device_callback lib_ok manual_hosts STATE
                (up (DeviceWrapper__init__ living_room)))) = 0%nat.
Proof.
  apply (callbacks_leave_a_live_session lib_ok manual_hosts
           (up (DeviceWrapper__init__ living_room)) eq_refl).
  right; right; left. now exists STATE.
Defined.

(** X15. After [disconnect], whatever the state before, the wrapper is
    not connected and a firing of its poll task requests nothing and
    starts no timer. *)
Theorem disconnect_stops_polling lib self :
  let out := (disconnect;; _timer_callback lib)%py self in
  connected (final out) = false /\
  count is_lib_disconnect (effects out) = 1%nat /\
  count is_request (effects out) = 0%nat /\
  count is_timer_start (effects out) = 0%nat /\
  listeners (final out) = listeners self.
Proof. open_wrapper self. repeat split. Qed.

(** X16. The [add_listener] flag of [_add_device] decides the listener
    and nothing else: with the flag the call first adds the device
    callback and then does exactly what it does without the flag. *)
Theorem add_listener_only_adds_the_listener lib hosts self :
  effects (_add_device lib hosts true self) =
    LibAddMessageListener device_callback :: effects (_add_device lib hosts false self) /\
  listeners (final (_add_device lib hosts true self)) = listeners self ++ [device_callback] /\
  listeners (final (_add_device lib hosts false self)) = listeners self /\
  connected (final (_add_device lib hosts true self)) =
    connected (final (_add_device lib hosts false self)) /\
  _config_device (final (_add_device lib hosts true self)) = _config_device self.
Proof.
  open_wrapper self. run_method.
  destruct (truthy (hosts !! upper (dev_serial cfg)));
    destruct c, lib as [[] ro]; repeat split.
Qed.

(** ** The heap and the trace of a running manager *)

Lemma callback_keeps_identity lib hosts self :
  (forall address, same_identity self (final (_discovery_callback lib address self))) /\
  (forall message, same_identity self (final (_device_callback lib hosts message self))) /\
  (forall t, same_identity self (final (fire lib t self))).
Proof.
  open_wrapper self. split; [|split].
  - intros address. destruct c, lib as [[] ro]; repeat split.
  - intros message. destruct c; run_method; [repeat split|].
    destruct (truthy (hosts !! upper (dev_serial cfg)));
      destruct lib as [[] ro]; repeat split.
  - intros [h|]; destruct c, lib as [[] []]; repeat split.
Qed.

Lemma same_identity_refl a : same_identity a a.
Proof. repeat split. Qed.

Lemma same_identity_trans a b c :
  same_identity a b -> same_identity b c -> same_identity a c.
Proof. unfold same_identity. intros (-> & -> & ->) (-> & -> & ->). repeat split. Qed.

Lemma run_on_identity j m w i self :
  (forall d, same_identity d (final (m d))) ->
  heap w !! i = Some self ->
  exists self', heap (run_on j m w) !! i = Some self' /\ same_identity self self'.
Proof.
  intros Hm Hi. destruct (heap w !! j) as [d|] eqn:E.
  - rewrite (run_on_some _ _ _ _ E). cbn [heap].
    destruct (Nat.eq_dec j i) as [->|Hne].
    + rewrite list_lookup_insert_eq by now apply lookup_lt_Some in E.
      eexists. split; [reflexivity|]. assert (d = self) as -> by congruence.
      apply Hm.
    + rewrite list_lookup_insert_ne by exact Hne.
      exists self. split; [exact Hi | apply same_identity_refl].
  - rewrite (run_on_none _ _ _ E). exists self.
    split; [exact Hi | apply same_identity_refl].
Qed.

Lemma step_identity hosts lib ev w i self :
  heap w !! i = Some self ->
  exists self', heap (step hosts lib ev w) !! i = Some self' /\
                same_identity self self'.
Proof.
  intros Hi. destruct ev as [j address|j message|k|j]; cbn [step].
  - apply run_on_identity; [|exact Hi].
    intros d. apply (callback_keeps_identity lib hosts d).
  - apply run_on_identity; [|exact Hi].
    intros d. apply (callback_keeps_identity lib hosts d).
  - destruct (timers w !! k) as [t|].
    + apply run_on_identity; [|exact Hi].
      intros d. apply (callback_keeps_identity lib hosts d).
    + exists self. split; [exact Hi | apply same_identity_refl].
  - destruct (heap w !! j) as [d|] eqn:E.
    + cbn [heap]. destruct (Nat.eq_dec j i) as [->|Hne].
      * rewrite list_lookup_insert_eq by now apply lookup_lt_Some in E.
        eexists. split; [reflexivity|]. assert (d = self) as -> by congruence.
        destruct self as [cfg secs [c ls]]. repeat split.
      * rewrite list_lookup_insert_ne by exact Hne.
        exists self. split; [exact Hi | apply same_identity_refl].
    + exists self. split; [exact Hi | apply same_identity_refl].
Qed.

Lemma step_heap_length hosts lib ev w :
  length (heap (step hosts lib ev w)) = length (heap w).
Proof.
  assert (Hrun : forall j m w0, length (heap (run_on j m w0)) = length (heap w0)).
  { intros j m w0. destruct (heap w0 !! j) as [d|] eqn:E.
    - rewrite (run_on_some _ _ _ _ E). cbn [heap]. apply length_insert.
    - now rewrite (run_on_none _ _ _ E). }
  destruct ev as [j address|j message|k|j]; cbn [step]; try apply Hrun.
  - destruct (timers w !! k); [|reflexivity]. now rewrite Hrun.
  - destruct (heap w !! j); [|reflexivity]. cbn [heap]. apply length_insert.
Qed.

Lemma run_events_identity hosts evs :
  forall w i self,
    heap w !! i = Some self ->
    exists self', heap (run_events hosts evs w) !! i = Some self' /\
                  same_identity self self'.
Proof.
  induction evs as [|[lib ev] evs IH]; intros w i self Hi.
  - exists self. split; [exact Hi | apply same_identity_refl].
  - cbn [run_events].
    destruct (step_identity hosts lib ev w i self Hi) as (s1 & H1 & Hid1).
    destruct (IH _ i s1 H1) as (s2 & H2 & Hid2).
    exists s2. split; [exact H2 | exact (same_identity_trans _ _ _ Hid1 Hid2)].
Qed.

Lemma run_events_heap_length hosts evs :
  forall w, length (heap (run_events hosts evs w)) = length (heap w).
Proof.
  induction evs as [|[lib ev] evs IH]; intros w; [reflexivity|].
  cbn [run_events]. now rewrite IH, step_heap_length.
Qed.

Lemma add_device_fresh_secs lib hosts d :
  _environment_refresh_secs (final (_add_device lib hosts true (DeviceWrapper__init__ d))) =
    default_environment_refresh_secs.
Proof.
  cbv [DeviceWrapper__init__ _create_libdyson_device]. run_method.
  destruct (truthy (hosts !! upper (dev_serial d)));
    destruct lib as [[] ro]; reflexivity.
Qed.

(** X4. The wrappers of a manager are fixed at startup: in every world
    it reaches there is one wrapper per configured device, in the order of
    the configuration, and the wrapper still holds its device record, the
    refresh interval of 30 seconds and exactly one listener, the device
    callback. No callback adds a second listener or replaces a wrapper. *)
Theorem wrappers_are_fixed_at_startup libs ds hosts evs :
  let w := run_events hosts evs (snd (ConnectionManager__init__ libs ds hosts)) in
  length (heap w) = length ds /\
  (forall i d, ds !! i = Some d ->
     exists self,
       heap w !! i = Some self /\ _config_device self = d /\
       _environment_refresh_secs self = 30 /\
       listeners self = [device_callback]).
Proof.
  cbn zeta. unfold ConnectionManager__init__.
  destruct (add_devices_spec libs hosts ds
              (mkWorld [] [] [(None, Log INFO "Starting discovery..." []);
                              (None, StartDiscovery)]))
    as (w0 & -> & Hlen & _ & Hnew).
  cbn [snd heap length Nat.add] in *. split.
  - now rewrite run_events_heap_length.
  - intros i d Hi. destruct (Hnew i d Hi) as [Hh _].
    destruct (run_events_identity hosts evs w0 i _ Hh) as (self & Hself & Hc & Hs & Hl).
    destruct (add_device_fresh (libs i) hosts d) as (_ & Hcfg & Hls).
    exists self. split; [exact Hself|]. split; [|split].
    + now rewrite Hc.
    + rewrite Hs. apply add_device_fresh_secs.
    + now rewrite Hl.
Qed.

Lemma wrappers_are_fixed_at_startup_witness :
  exists self,
    heap (run_events no_hosts reconnect_run started_up) !! 0%nat = Some self /\
    _config_device self = living_room /\
    listeners self = [device_callback].
Proof.
  destruct (wrappers_are_fixed_at_startup (fun _ => lib_ok) [living_room] no_hosts
              reconnect_run) as [_ Hall].
  destruct (Hall 0%nat living_room eq_refl) as (self & H1 & H2 & _ & H4).
  exists self. repeat split; assumption.
Defined.

Lemma run_on_trace j m w d :
  heap w !! j = Some d ->
  trace (run_on j m w) = trace w ++ tag j (effects (m d)).
Proof. intros E. now rewrite (run_on_some _ _ _ _ E). Qed.

Lemma restarts_app tr1 tr2 : restarts (tr1 ++ tr2) = restarts tr1 ++ restarts tr2.
Proof. unfold restarts. now rewrite map_app, List.filter_app. Qed.

Lemma restarts_tag j es : restarts (tag j es) = List.filter is_discovery_restart es.
Proof.
  unfold restarts, tag. rewrite map_map. cbn [snd]. now rewrite map_id.
Qed.

Lemma callback_restarts lib hosts self :
  (forall address,
     List.filter is_discovery_restart
       (effects (_discovery_callback lib address self)) = []) /\
  (forall message,
     List.filter is_discovery_restart
       (effects (_device_callback lib hosts message self)) =
     if connected self then [] else stop_start) /\
  (forall t, List.filter is_discovery_restart (effects (fire lib t self)) = []) /\
  (forall b, List.filter is_discovery_restart
               (effects (_add_device lib hosts b self)) = []).
Proof.
  open_wrapper self. split; [|split; [|split]].
  - intros address. destruct c, lib as [[] ro]; reflexivity.
  - intros message. destruct c; run_method; cbv [is_discovery_restart];
      run_method; [reflexivity|].
    destruct (truthy (hosts !! upper (dev_serial cfg)));
      destruct lib as [[] ro]; reflexivity.
  - intros [h|]; destruct c, lib as [[] []]; reflexivity.
  - intros b. destruct b; run_method; cbv [is_discovery_restart]; run_method;
      destruct (truthy (hosts !! upper (dev_serial cfg)));
      destruct c, lib as [[] ro]; reflexivity.
Qed.

Lemma concat_repeat_snoc {A} (x : list A) n :
  concat (repeat x n) ++ x = concat (repeat x (S n)).
Proof.
  induction n as [|n IH]; cbn [repeat concat].
  - now rewrite app_nil_r.
  - rewrite <- app_assoc, IH. reflexivity.
Qed.

Lemma run_on_restarts j m w :
  (forall d, List.filter is_discovery_restart (effects (m d)) = [] \/
             List.filter is_discovery_restart (effects (m d)) = stop_start) ->
  restarts (trace (run_on j m w)) = restarts (trace w) \/
  restarts (trace (run_on j m w)) = restarts (trace w) ++ stop_start.
Proof.
  intros Hm. destruct (heap w !! j) as [d|] eqn:E.
  - rewrite (run_on_trace _ _ _ _ E), restarts_app, restarts_tag.
    destruct (Hm d) as [-> | ->]; [left; apply app_nil_r | now right].
  - rewrite (run_on_none _ _ _ E). now left.
Qed.

Lemma step_restarts hosts lib ev w :
  restarts (trace (step hosts lib ev w)) = restarts (trace w) \/
  restarts (trace (step hosts lib ev w)) = restarts (trace w) ++ stop_start.
Proof.
  destruct ev as [j address|j message|k|j]; cbn [step].
  - apply run_on_restarts. intros d. left.
    apply (callback_restarts lib hosts d).
  - apply run_on_restarts. intros d.
    destruct (callback_restarts lib hosts d) as (_ & Hmsg & _).
    rewrite Hmsg. destruct (connected d); [now left | now right].
  - destruct (timers w !! k) as [t|]; [|now left].
    apply (run_on_restarts (timer_owner t) (fire lib (timer_target t))
             (mkWorld (heap w) (delete k (timers w)) (trace w))).
    intros d. left. apply (callback_restarts lib hosts d).
  - destruct (heap w !! j); now left.
Qed.

Lemma add_devices_restarts libs hosts ds :
  forall w, restarts (trace (snd (add_devices libs hosts ds w))) = restarts (trace w).
Proof.
  induction ds as [|d ds IH]; intros w; [reflexivity|].
  cbn [add_devices].
  destruct (callback_restarts (libs (length (heap w))) hosts
              (DeviceWrapper__init__ d)) as (_ & _ & _ & Hadd).
  specialize (Hadd true).
  destruct (_add_device (libs (length (heap w))) hosts true
              (DeviceWrapper__init__ d)) as [[r d'] es].
  cbv [effects snd] in Hadd.
  destruct r.
  - rewrite IH. cbn [trace]. rewrite restarts_app, restarts_tag, Hadd.
    apply app_nil_r.
  - cbn [snd trace]. rewrite restarts_app, restarts_tag, Hadd. apply app_nil_r.
Qed.

(** X5. Discovery is started once at startup and afterwards only ever
    restarted: in every world a manager reaches, the starts and stops of
    the discovery service recorded so far are one start followed by
    stop/start pairs, so the service is running whenever no callback is
    in progress. *)
Theorem discovery_is_left_running libs ds hosts evs :
  exists n,
    restarts (trace (run_events hosts evs
                       (snd (ConnectionManager__init__ libs ds hosts)))) =
      StartDiscovery :: concat (repeat stop_start n).
Proof.
  assert (Hrun : forall evs w n,
            restarts (trace w) = StartDiscovery :: concat (repeat stop_start n) ->
            exists n', restarts (trace (run_events hosts evs w)) =
                         StartDiscovery :: concat (repeat stop_start n')).
  { clear evs. induction evs as [|[lib ev] evs IH]; intros w n Hw.
    - exists n. exact Hw.
    - cbn [run_events]. destruct (step_restarts hosts lib ev w) as [Hs|Hs].
      + apply (IH _ n). now rewrite Hs.
      + apply (IH _ (S n)). rewrite Hs, Hw. cbn [app]. f_equal.
        apply concat_repeat_snoc. }
  apply (Hrun evs _ 0%nat). unfold ConnectionManager__init__.
  now rewrite add_devices_restarts.
Qed.

(** ** Events of one device and the others *)





(** ** Timer firings *)

Lemma fires_some hosts lib w k t d :
  timers w !! k = Some t ->
  heap w !! timer_owner t = Some d ->
  step hosts lib (Fires k) w =
    mkWorld (<[timer_owner t := final (fire lib (timer_target t) d)]> (heap w))
            (delete k (timers w) ++
             started (timer_owner t) (effects (fire lib (timer_target t) d)))
            (trace w ++ tag (timer_owner t) (effects (fire lib (timer_target t) d))).
Proof.
  intros Hk Hd. cbn [step]. rewrite Hk.
  now rewrite (run_on_some _ _ (mkWorld (heap w) (delete k (timers w)) (trace w)) d Hd).
Qed.

Lemma timer_callback_requests lib self :
  count is_request (effects (_timer_callback lib self)) =
    (if connected self then 1 else 0)%nat.
Proof.
  open_wrapper self. destruct c, lib as [co []]; reflexivity.
Qed.

Lemma count_app p es1 es2 :
  count p (es1 ++ es2) = (count p es1 + count p es2)%nat.
Proof. unfold count. apply length_filter_app. Qed.

Lemma is_poll_of_poll i secs : is_poll_of i (mkTimer i secs timer_callback) = true.
Proof. unfold is_poll_of. cbn [timer_owner timer_target]. now rewrite Nat.eqb_refl. Qed.

(** X7. A poll task that fires is consumed. On a connected device it is
    replaced by one poll task with the same interval, after exactly one
    request, so the number of poll tasks of the device stays the same; on
    a device that is not connected nothing replaces it and nothing is
    requested, so a disconnected device loses one poll task per firing.
    The wrappers are untouched either way. *)
Theorem poll_firing hosts lib w k t d :
  timers w !! k = Some t ->
  timer_target t = timer_callback ->
  heap w !! timer_owner t = Some d ->
  let w' := step hosts lib (Fires k) w in
  heap w' = heap w /\
  (connected d = true ->
     timers w' = delete k (timers w) ++
                 [mkTimer (timer_owner t) (_environment_refresh_secs d) timer_callback] /\
     poll_tasks w' (timer_owner t) = poll_tasks w (timer_owner t) /\
     count is_request (calls_of (timer_owner t) (trace w')) =
       S (count is_request (calls_of (timer_owner t) (trace w)))) /\
  (connected d = false ->
     timers w' = delete k (timers w) /\
     S (poll_tasks w' (timer_owner t)) = poll_tasks w (timer_owner t) /\
     count is_request (calls_of (timer_owner t) (trace w')) =
       count is_request (calls_of (timer_owner t) (trace w))).
Proof.
  intros Hk Htarget Hd w'. subst w'. rewrite (fires_some _ _ _ _ _ _ Hk Hd).
  rewrite Htarget. cbn [fire heap timers trace].
  destruct (timer_callback_reschedules lib (timer_owner t) d) as [Hsame Hnext].
  pose proof (timer_callback_requests lib d) as Hreq.
  pose proof (length_filter_delete (is_poll_of (timer_owner t)) (timers w) k t Hk)
    as Hdel.
  assert (Hp : is_poll_of (timer_owner t) t = true)
    by (unfold is_poll_of; now rewrite Htarget, Nat.eqb_refl).
  rewrite Hp in Hdel. rewrite Hsame. split; [now apply list_insert_id|].
  unfold poll_tasks. cbn [timers]. rewrite calls_of_app, calls_of_tag_same, count_app.
  split; intros Hc; rewrite Hc in Hreq; rewrite Hreq.
  - rewrite (Hnext Hc). split; [reflexivity|]. split; [|lia].
    rewrite length_filter_app. cbn [List.filter]. rewrite is_poll_of_poll.
    cbn [length]. lia.
  - assert (Hnone : started (timer_owner t) (effects (_timer_callback lib d)) = []).
    { destruct d as [cfg secs [c ls]]. cbv [connected dyson_connected libdyson] in Hc.
      subst c. reflexivity. }
    rewrite Hnone, app_nil_r. split; [reflexivity|]. split; lia.
Qed.

Lemma poll_firing_witness :
  poll_tasks (step no_hosts lib_ok (Fires 0)
                (run_events no_hosts (firstn 2 reconnect_run) started_up)) 0 = 0%nat.
Proof.
  destruct (poll_firing no_hosts lib_ok
              (run_events no_hosts (firstn 2 reconnect_run) started_up) 0%nat
              (mkTimer 0 30 timer_callback)
              (push_listener device_callback (DeviceWrapper__init__ living_room))
              eq_refl eq_refl eq_refl) as (_ & _ & Hoff).
  destruct (Hoff eq_refl) as (_ & Hpoll & _).
  exact (eq_add_S _ _ Hpoll).
Defined.

(** X8. A retry of [connect] that fires is consumed. If the device has
    connected in the meantime the retry does nothing more. Otherwise it
    attempts the same host again: on a timeout one retry for that host
    takes its place, with the default delay of 30 seconds, and the number
    of pending retries of the device stays the same; on success the device
    is connected, has one retry less and one poll task more. *)
Theorem retry_firing hosts lib w k t host d :
  timers w !! k = Some t ->
  timer_target t = connect_args host ->
  heap w !! timer_owner t = Some d ->
  let i := timer_owner t in
  let w' := step hosts lib (Fires k) w in
  (connected d = true ->
     timers w' = delete k (timers w) /\ heap w' = heap w /\
     count is_lib_connect (calls_of i (trace w')) =
       count is_lib_connect (calls_of i (trace w))) /\
  (connected d = false -> connect_outcome lib = ConnectTimesOut ->
     timers w' = delete k (timers w) ++ [mkTimer i 30 (connect_args host)] /\
     heap w' = heap w /\
     connect_attempts w' i = connect_attempts w i) /\
  (connected d = false -> connect_outcome lib = ConnectOk ->
     timers w' = delete k (timers w) ++
                 [mkTimer i (_environment_refresh_secs d) timer_callback] /\
     connected_at w' i = true /\
     S (connect_attempts w' i) = connect_attempts w i /\
     poll_tasks w' i = S (poll_tasks w i)).
Proof.
  intros Hk Htarget Hd i w'. subst i w'. rewrite (fires_some _ _ _ _ _ _ Hk Hd).
  rewrite Htarget. cbn [fire heap timers trace].
  pose proof (length_filter_delete (is_retry_of (timer_owner t)) (timers w) k t Hk)
    as Hretry.
  pose proof (length_filter_delete (is_poll_of (timer_owner t)) (timers w) k t Hk)
    as Hpoll.
  assert (Hr : is_retry_of (timer_owner t) t = true)
    by (unfold is_retry_of; now rewrite Htarget, Nat.eqb_refl).
  assert (Hp : is_poll_of (timer_owner t) t = false)
    by (unfold is_poll_of; rewrite Htarget; apply andb_false_r).
  rewrite Hr in Hretry. rewrite Hp in Hpoll.
  assert (Hlt : (timer_owner t < length (heap w))%nat)
    by now apply lookup_lt_Some in Hd.
  unfold connect_attempts, poll_tasks, connected_at. cbn [timers heap].
  rewrite calls_of_app, calls_of_tag_same, count_app.
  split; [|split].
  - intros Hc. open_wrapper d. subst c. cbn.
    rewrite app_nil_r. split; [reflexivity|]. split; [now apply list_insert_id|lia].
  - intros Hc Hlib. rewrite (connect_timeout _ _ _ _ Hc Hlib).
    cbn [final effects fst snd started]. split; [reflexivity|].
    split; [now apply list_insert_id|].
    rewrite length_filter_app. cbn [List.filter].
    assert (Hq : is_retry_of (timer_owner t)
                   (mkTimer (timer_owner t) connect_default_retry (connect_args host)) = true)
      by (unfold is_retry_of; cbn [timer_owner timer_target];
          now rewrite Nat.eqb_refl).
    rewrite Hq. cbn [length]. lia.
  - intros Hc Hlib.
    assert (Hrun : connect lib host connect_default_retry d =
              (Ret tt, set_connected true d,
               [LibConnect host;
                TimerStart (_environment_refresh_secs d) timer_callback])).
    { clear - Hc Hlib. open_wrapper d. subst c. destruct lib as [co ro].
      simpl in Hlib. subst co. reflexivity. }
    rewrite Hrun. cbn [final effects fst snd started].
    rewrite list_lookup_insert_eq by exact Hlt.
    split; [reflexivity|]. split; [reflexivity|].
    rewrite !length_filter_app. cbn [List.filter].
    rewrite is_poll_of_poll.
    assert (Hq : is_retry_of (timer_owner t)
                   (mkTimer (timer_owner t) (_environment_refresh_secs d)
                            timer_callback) = false)
      by (unfold is_retry_of; cbn [timer_owner timer_target]; apply andb_false_r).
    rewrite Hq. cbn [length]. lia.
Qed.

Lemma retry_firing_witness :
  timers (step no_hosts lib_timeout (Fires 0)
            (step no_hosts lib_timeout (Discovered 0 "10.0.0.9") started_up)) =
    [mkTimer 0 30 (connect_args "10.0.0.9")].
Proof.
  destruct (retry_firing no_hosts lib_timeout
              (step no_hosts lib_timeout (Discovered 0 "10.0.0.9") started_up)
              0%nat (mkTimer 0 30 (connect_args "10.0.0.9")) "10.0.0.9"
              (push_listener device_callback (DeviceWrapper__init__ living_room))
              eq_refl eq_refl eq_refl) as (_ & Hagain & _).
  exact (proj1 (Hagain eq_refl eq_refl)).
Defined.

(** ** [main] *)








(** X11. [--include_inactive_devices] changes nothing but the log: with
    the flag [main] ends the same way and makes the same calls in the same
    order, with one warning added right after the line that reports the
    port (and with no difference at all when the log level is unknown). *)
Theorem include_inactive_devices_only_warns logging_getattr config_Config libs args :
  let without := main logging_getattr config_Config libs (with_flag false args) in
  let with_it := main logging_getattr config_Config libs (with_flag true args) in
  snd with_it = snd without /\
  (logging_getattr (log_level args) = None -> fst with_it = fst without) /\
  (forall level, logging_getattr (log_level args) = Some level ->
     exists rest,
       fst without =
         [BasicConfig level;
          Call None (Log INFO "Starting up on port=%s" [pretty (port args)])] ++ rest /\
       fst with_it =
         [BasicConfig level;
          Call None (Log INFO "Starting up on port=%s" [pretty (port args)])] ++
         inactive_warning :: rest).
Proof.
  cbn zeta. unfold main, with_flag.
  cbn [port config log_level include_inactive_devices].
  destruct (logging_getattr (log_level args)) as [level|].
  2:{ repeat split. intros level H. discriminate. }
  destruct (config_Config (config args)) as [cfg|].
  2:{ repeat split; [discriminate|]. intros l [= <-]. eexists. split; reflexivity. }
  destruct (Z.of_nat (length (devices cfg)) =? 0)%Z.
  { repeat split; [discriminate|]. intros l [= <-]. eexists. split; reflexivity. }
  destruct (ConnectionManager__init__ libs (devices cfg) (hosts cfg)) as [[|e] w];
    (repeat split; [discriminate|]; intros l [= <-]; eexists; split; reflexivity).
Qed.

Lemma include_inactive_devices_only_warns_witness :
  exists rest,
    fst (main (fun _ => Some 20) (fun _ => None) (fun _ => lib_ok)
              (with_flag true sample_args)) =
      [BasicConfig 20; Call None (Log INFO "Starting up on port=%s" ["8091"])] ++
      inactive_warning :: rest.
Proof.
  destruct (include_inactive_devices_only_warns (fun _ => Some 20) (fun _ => None)
              (fun _ => lib_ok) sample_args) as (_ & _ & Hwarn).
  destruct (Hwarn 20 eq_refl) as (rest & _ & Hwith).
  exists rest. exact Hwith.
Defined.

(** ** Calls made for one device over a run *)

Lemma calls_of_tag i j es :
  calls_of i (tag j es) = if Nat.eqb j i then es else [].
Proof.
  destruct (Nat.eqb_spec j i) as [->|Hne];
    [apply calls_of_tag_same | now apply calls_of_tag_other].
Qed.

(** The calls a step adds for wrapper [i] are the effects of the callback
    the event runs, when it runs on [i], and none otherwise. *)
Lemma step_calls hosts lib ev w i :
  calls_of i (trace (step hosts lib ev w)) =
    calls_of i (trace w) ++
    match callback_of hosts lib w ev with
    | Some (j, m) =>
        match heap w !! j with
        | Some self => if Nat.eqb j i then effects (m self) else []
        | None => []
        end
    | None => []
    end.
Proof.
  assert (Hrun : forall j m w0,
            calls_of i (trace (run_on j m w0)) =
              calls_of i (trace w0) ++
              match heap w0 !! j with
              | Some self => if Nat.eqb j i then effects (m self) else []
              | None => []
              end).
  { intros j m w0. destruct (heap w0 !! j) as [d|] eqn:E.
    - now rewrite (run_on_trace _ _ _ _ E), calls_of_app, calls_of_tag.
    - rewrite (run_on_none _ _ _ E). now rewrite app_nil_r. }
  destruct ev as [j address|j message|k|j]; cbn [step callback_of].
  - apply Hrun.
  - apply Hrun.
  - destruct (timers w !! k) as [t|]; [|now rewrite app_nil_r].
    apply (Hrun (timer_owner t) (fire lib (timer_target t))
             (mkWorld (heap w) (delete k (timers w)) (trace w))).
  - rewrite app_nil_r. now destruct (heap w !! j).
Qed.

Lemma callback_updates lib hosts self :
  (forall address, count is_update (effects (_discovery_callback lib address self)) = 0%nat) /\
  (forall message,
     count is_update (effects (_device_callback lib hosts message self)) =
       if connected self then 1%nat else 0%nat) /\
  (forall t, count is_update (effects (fire lib t self)) = 0%nat) /\
  (forall b, count is_update (effects (_add_device lib hosts b self)) = 0%nat).
Proof.
  open_wrapper self. split; [|split; [|split]].
  - intros address. destruct c, lib as [[] ro]; reflexivity.
  - intros message. destruct c; run_method; [reflexivity|].
    destruct (truthy (hosts !! upper (dev_serial cfg)));
      destruct lib as [[] ro]; reflexivity.
  - intros [h|]; destruct c, lib as [[] []]; reflexivity.
  - intros b. destruct b; run_method;
      destruct (truthy (hosts !! upper (dev_serial cfg)));
      destruct c, lib as [[] ro]; reflexivity.
Qed.

Lemma step_updates hosts lib ev w i :
  (count is_update (calls_of i (trace (step hosts lib ev w))) <=
     count is_update (calls_of i (trace w)) + (if delivers i ev then 1 else 0))%nat.
Proof.
  rewrite step_calls, count_app.
  destruct ev as [j address|j message|k|j]; cbn [callback_of delivers].
  - destruct (heap w !! j) as [d|]; [|cbn; lia].
    destruct (Nat.eqb j i); [|cbn; lia].
    destruct (callback_updates lib hosts d) as (-> & _). lia.
  - destruct (heap w !! j) as [d|]; [|cbn; lia].
    destruct (Nat.eqb j i); [|cbn; lia].
    destruct (callback_updates lib hosts d) as (_ & -> & _).
    destruct (connected d); lia.
  - destruct (timers w !! k) as [t|]; [|cbn; lia].
    destruct (heap w !! timer_owner t) as [d|]; [|cbn; lia].
    destruct (Nat.eqb (timer_owner t) i); [|cbn; lia].
    destruct (callback_updates lib hosts d) as (_ & _ & -> & _). lia.
  - cbn. lia.
Qed.

Lemma add_devices_count p libs hosts ds i :
  (forall lib self, count p (effects (_add_device lib hosts true self)) = 0%nat) ->
  forall w,
    count p (calls_of i (trace (snd (add_devices libs hosts ds w)))) =
    count p (calls_of i (trace w)).
Proof.
  intros Hp. induction ds as [|d ds IH]; intros w; [reflexivity|].
  cbn [add_devices].
  specialize (Hp (libs (length (heap w))) (DeviceWrapper__init__ d)).
  destruct (_add_device (libs (length (heap w))) hosts true
              (DeviceWrapper__init__ d)) as [[r d'] es].
  cbv [effects snd] in Hp.
  assert (Hone : count p (calls_of i (trace w ++ tag (length (heap w)) es)) =
                 count p (calls_of i (trace w))).
  { rewrite calls_of_app, count_app, calls_of_tag.
    destruct (Nat.eqb (length (heap w)) i); [rewrite Hp|cbn]; lia. }
  destruct r; [rewrite IH|]; exact Hone.
Qed.

(** X12. The metrics callback is called for dispatched messages only:
    in every world a manager reaches, the number of [update_fn] calls made
    for a device is at most the number of messages handed to its listener;
    startup, discovery callbacks, timers and link losses make none. *)
Theorem updates_come_from_messages libs ds hosts evs i :
  (count is_update
     (calls_of i (trace (run_events hosts evs
                           (snd (ConnectionManager__init__ libs ds hosts))))) <=
   deliveries_for i evs)%nat.
Proof.
  assert (Hrun : forall evs w,
    (count is_update (calls_of i (trace (run_events hosts evs w))) <=
     count is_update (calls_of i (trace w)) + deliveries_for i evs)%nat).
  { clear evs. induction evs as [|[lib ev] evs IH]; intros w; [cbn; lia|].
    cbn [run_events]. specialize (IH (step hosts lib ev w)).
    pose proof (step_updates hosts lib ev w i) as Hstep.
    unfold deliveries_for in *. cbn [List.filter snd].
    destruct (delivers i ev); cbn [length]; lia. }
  specialize (Hrun evs (snd (ConnectionManager__init__ libs ds hosts))).
  unfold ConnectionManager__init__ in Hrun at 2.
  rewrite (add_devices_count is_update) in Hrun.
  - exact Hrun.
  - intros lib self. apply (callback_updates lib hosts self).
Qed.

(** ** Where connection attempts go *)

Lemma In_delete {A} (x : A) k (l : list A) : In x (delete k l) -> In x l.
Proof.
  revert k. induction l as [|y l IH]; intros k; [now destruct k|].
  destruct k as [|k].
  - change (delete 0%nat (y :: l)) with l. now right.
  - change (delete (S k) (y :: l)) with (y :: delete k l).
    intros [->|Hin]; [now left | right; exact (IH k Hin)].
Qed.

Lemma connect_hosts lib host r j self h :
  hosts_of j (effects (connect lib host r self)) h -> h = host.
Proof.
  open_wrapper self. unfold hosts_of.
  destruct c, lib as [[] ro]; cbn;
    intros [Hin|(t & Hin & Ht)];
    repeat match goal with
           | H : False |- _ => destruct H
           | H : _ \/ _ |- _ => destruct H as [H|H]
           | H : mkTimer _ _ _ = ?t |- _ => subst t; cbn in *
           end; congruence.
Qed.

Lemma hosts_of_cons_other j e es h :
  is_lib_connect e = false -> is_timer_start e = false ->
  hosts_of j (e :: es) h -> hosts_of j es h.
Proof.
  intros Hc Ht [Hin|(t & Hin & Htarget)].
  - left. destruct Hin as [->|Hin]; [cbn in Hc; discriminate Hc|exact Hin].
  - right. exists t. split; [|exact Htarget]. destruct e; try exact Hin.
    cbn in Ht. discriminate Ht.
Qed.

Lemma discovery_callback_hosts lib address j self h :
  hosts_of j (effects (_discovery_callback lib address self)) h -> h = address.
Proof.
  rewrite discovery_callback_connects. cbn [effects snd]. intros H.
  apply hosts_of_cons_other in H; [|reflexivity..].
  exact (connect_hosts _ _ _ _ _ _ H).
Qed.

Lemma timer_callback_hosts lib j self h :
  ~ hosts_of j (effects (_timer_callback lib self)) h.
Proof.
  open_wrapper self. unfold hosts_of.
  destruct c, lib as [co []]; cbn;
    intros [Hin|(t & Hin & Ht)];
    repeat match goal with
           | H : False |- _ => destruct H
           | H : _ \/ _ |- _ => destruct H as [H|H]
           | H : mkTimer _ _ _ = ?t |- _ => subst t; cbn in *
           end; congruence.
Qed.

Lemma add_device_hosts lib hosts b j self h :
  hosts_of j (effects (_add_device lib hosts b self)) h ->
  In h (manual_address hosts (_config_device self)).
Proof.
  open_wrapper self. unfold hosts_of, manual_address.
  cbn [_config_device]. destruct b; run_method;
    destruct (truthy (hosts !! upper (dev_serial cfg)));
    destruct c, lib as [[] ro]; cbn;
    intros [Hin|(t & Hin & Ht)];
    repeat match goal with
           | H : False |- _ => destruct H
           | H : _ \/ _ |- _ => destruct H as [H|H]
           | H : mkTimer _ _ _ = ?t |- _ => subst t; cbn in *
           end; try congruence; left; congruence.
Qed.

Lemma device_callback_hosts lib hosts message j self h :
  hosts_of j (effects (_device_callback lib hosts message self)) h ->
  In h (manual_address hosts (_config_device self)).
Proof.
  open_wrapper self. unfold hosts_of, manual_address.
  cbn [_config_device]. destruct c; run_method;
    [intros [Hin|(t & Hin & Ht)]; cbn in *;
     repeat match goal with
            | H : False |- _ => destruct H
            | H : _ \/ _ |- _ => destruct H as [H|H]
            end; congruence|].
  destruct (truthy (hosts !! upper (dev_serial cfg)));
    destruct lib as [[] ro]; cbn;
    intros [Hin|(t & Hin & Ht)];
    repeat match goal with
           | H : False |- _ => destruct H
           | H : _ \/ _ |- _ => destruct H as [H|H]
           | H : mkTimer _ _ _ = ?t |- _ => subst t; cbn in *
           end; try congruence; left; congruence.
Qed.

Lemma hosts_known_incl A B i w :
  incl A B -> hosts_known A i w -> hosts_known B i w.
Proof.
  intros Hincl [Ht Hc]. split.
  - intros t h Hin Ho Htarget. apply Hincl. exact (Ht t h Hin Ho Htarget).
  - intros h Hin. apply Hincl. exact (Hc h Hin).
Qed.

Lemma hosts_known_extend A i hp hp' tm tr j es :
  hosts_known A i (mkWorld hp tm tr) ->
  (j = i -> forall h, hosts_of i es h -> In h A) ->
  hosts_known A i (mkWorld hp' (tm ++ started j es) (tr ++ tag j es)).
Proof.
  intros [Ht Hc] Hnew. cbn [timers trace] in *. split; cbn [timers trace].
  - intros t h Hin Ho Htarget. apply in_app_or in Hin. destruct Hin as [Hin|Hin].
    + exact (Ht t h Hin Ho Htarget).
    + pose proof (started_owner _ _ _ Hin) as Hj.
      assert (j = i) as -> by congruence.
      apply (Hnew eq_refl). right. now exists t.
  - intros h Hin. rewrite calls_of_app, calls_of_tag in Hin.
    apply in_app_or in Hin. destruct Hin as [Hin|Hin]; [exact (Hc h Hin)|].
    destruct (Nat.eqb_spec j i) as [->|Hne]; [|destruct Hin].
    apply (Hnew eq_refl). now left.
Qed.

Lemma run_on_hosts_known A i j m w :
  hosts_known A i w ->
  (forall self, heap w !! i = Some self -> j = i ->
     forall h, hosts_of i (effects (m self)) h -> In h A) ->
  hosts_known A i (run_on j m w).
Proof.
  intros Hw Hnew. destruct (heap w !! j) as [d|] eqn:E.
  - rewrite (run_on_some _ _ _ _ E). apply hosts_known_extend with (hp := heap w).
    + now destruct w.
    + intros ->. now apply Hnew.
  - now rewrite (run_on_none _ _ _ E).
Qed.

Lemma lookup_In {A} (l : list A) k x : l !! k = Some x -> In x l.
Proof.
  revert k. induction l as [|y l IH]; intros k Hk.
  - rewrite lookup_nil in Hk. discriminate.
  - destruct k as [|k]; cbn in Hk; [injection Hk as ->; now left|].
    right. exact (IH k Hk).
Qed.

Lemma step_hosts_known hosts lib ev A i d w :
  incl (manual_address hosts d) A ->
  (forall self, heap w !! i = Some self -> _config_device self = d) ->
  hosts_known A i w ->
  hosts_known (A ++ discovered_for i [(lib, ev)]) i (step hosts lib ev w).
Proof.
  intros Hman Hcfg Hw.
  assert (Hgrow : incl A (A ++ discovered_for i [(lib, ev)]))
    by (apply incl_appl, incl_refl).
  destruct ev as [j address|j message|k|j]; cbn [step].
  - apply run_on_hosts_known; [exact (hosts_known_incl _ _ _ _ Hgrow Hw)|].
    intros self _ -> h Hh. apply discovery_callback_hosts in Hh. subst h.
    cbn [discovered_for]. rewrite Nat.eqb_refl. apply in_or_app. right. now left.
  - apply run_on_hosts_known; [exact (hosts_known_incl _ _ _ _ Hgrow Hw)|].
    intros self Hself -> h Hh. apply device_callback_hosts in Hh.
    rewrite (Hcfg self Hself) in Hh. apply Hgrow, Hman, Hh.
  - destruct (timers w !! k) as [t|] eqn:Hk;
      [|exact (hosts_known_incl _ _ _ _ Hgrow Hw)].
    apply run_on_hosts_known.
    + apply (hosts_known_incl A); [exact Hgrow|]. destruct Hw as [Ht Hc].
      split; [|exact Hc]. cbn [timers]. intros t' h Hin.
      apply Ht. exact (In_delete _ _ _ Hin).
    + cbn [heap]. intros self _ Ho h Hh. destruct (timer_target t) as [h'|] eqn:Htarget.
      * cbn [fire] in Hh. apply connect_hosts in Hh. subst h.
        apply Hgrow. destruct Hw as [Ht _].
        exact (Ht t h' (lookup_In _ _ _ Hk) Ho Htarget).
      * cbn [fire] in Hh. now apply timer_callback_hosts in Hh.
  - apply (hosts_known_incl A); [exact Hgrow|].
    destruct (heap w !! j); [|exact Hw]. exact Hw.
Qed.

Lemma discovered_for_app i evs1 evs2 :
  discovered_for i (evs1 ++ evs2) = discovered_for i evs1 ++ discovered_for i evs2.
Proof.
  induction evs1 as [|[lib ev] evs1 IH]; [reflexivity|].
  cbn [app discovered_for]. destruct ev; try exact IH.
  destruct (Nat.eqb i0 i); [cbn [app]; now rewrite IH | exact IH].
Qed.

Lemma run_events_hosts_known hosts d i evs :
  forall A w,
    incl (manual_address hosts d) A ->
    (forall self, heap w !! i = Some self -> _config_device self = d) ->
    hosts_known A i w ->
    hosts_known (A ++ discovered_for i evs) i (run_events hosts evs w).
Proof.
  induction evs as [|[lib ev] evs IH]; intros A w Hman Hcfg Hw.
  - cbn [discovered_for run_events]. now rewrite app_nil_r.
  - cbn [run_events].
    change ((lib, ev) :: evs) with ([(lib, ev)] ++ evs).
    rewrite discovered_for_app, app_assoc. apply IH.
    + apply incl_appl, Hman.
    + intros self Hself. destruct (heap w !! i) as [s0|] eqn:E.
      * destruct (step_identity hosts lib ev w i s0 E) as (s1 & H1 & Hc & _).
        assert (s1 = self) as <- by congruence. rewrite Hc. now apply Hcfg.
      * pose proof (step_heap_length hosts lib ev w) as Hlen.
        apply lookup_lt_Some in Hself. apply lookup_ge_None in E. lia.
    + now apply (step_hosts_known hosts lib ev A i d w).
Qed.

Lemma add_devices_hosts_known libs hosts ds A i :
  forall w,
    hosts_known A i w ->
    (forall k d, ds !! k = Some d -> (length (heap w) + k)%nat = i ->
                 incl (manual_address hosts d) A) ->
    hosts_known A i (snd (add_devices libs hosts ds w)).
Proof.
  induction ds as [|d ds IH]; intros w Hw Hman; [exact Hw|].
  cbn [add_devices].
  pose proof (fun h => add_device_hosts (libs (length (heap w))) hosts true i
                         (DeviceWrapper__init__ d) h) as Hhosts.
  destruct (_add_device (libs (length (heap w))) hosts true
              (DeviceWrapper__init__ d)) as [[r d'] es].
  cbv [effects snd] in Hhosts.
  assert (Hw1 : hosts_known A i
            (mkWorld (heap w ++ [d']) (timers w ++ started (length (heap w)) es)
                     (trace w ++ tag (length (heap w)) es))).
  { apply hosts_known_extend with (hp := heap w); [now destruct w|].
    intros Hi h Hh. apply (Hman 0%nat d eq_refl); [lia|].
    exact (Hhosts h Hh). }
  destruct r; [|exact Hw1]. apply IH; [exact Hw1|].
  intros k d0 Hk Hi. cbn [heap] in Hi. rewrite length_app in Hi. cbn [length] in Hi.
  apply (Hman (S k) d0 Hk). lia.
Qed.

Lemma wrappers_fixed libs ds hosts i d :
  ds !! i = Some d ->
  exists self,
    heap (snd (ConnectionManager__init__ libs ds hosts)) !! i = Some self /\
    _config_device self = d.
Proof.
  intros Hi. unfold ConnectionManager__init__.
  destruct (add_devices_spec libs hosts ds
              (mkWorld [] [] [(None, Log INFO "Starting discovery..." []);
                              (None, StartDiscovery)]))
    as (w0 & -> & _ & _ & Hnew).
  destruct (Hnew i d Hi) as [Hh _]. cbn [heap length Nat.add snd] in *.
  eexists. split; [exact Hh|].
  apply (add_device_fresh (libs i) hosts d).
Qed.

(** X13. A manager only ever connects to an address it was given: in
    every world it reaches, each host of a [libdyson.connect] made for a
    device, and each host a pending retry of the device will try, is the
    non-empty address the host table holds for the device's upper-cased
    serial or an address the discovery callback of that device was called
    with. *)
Theorem connections_go_to_known_hosts libs ds hosts evs i d :
  ds !! i = Some d ->
  hosts_known (manual_address hosts d ++ discovered_for i evs) i
    (run_events hosts evs (snd (ConnectionManager__init__ libs ds hosts))).
Proof.
  intros Hi. apply (run_events_hosts_known hosts d).
  - apply incl_refl.
  - intros self Hself.
    destruct (wrappers_fixed libs ds hosts i d Hi) as (s0 & H0 & Hc).
    congruence.
  - unfold ConnectionManager__init__. apply add_devices_hosts_known.
    + split; [intros t h []|]. cbn. intros h Hin. destruct Hin.
    + cbn [heap length Nat.add]. intros k d0 Hk <-.
      assert (d0 = d) as -> by congruence. apply incl_refl.
Qed.

Lemma connections_go_to_known_hosts_witness :
  hosts_known ["10.0.0.9"; "10.0.0.9"] 0
    (run_events no_hosts reconnect_run started_up).
Proof.
  exact (connections_go_to_known_hosts (fun _ => lib_ok) [living_room] no_hosts
           reconnect_run 0%nat living_room eq_refl).
Defined.

Lemma callback_registers lib hosts self :
  manual hosts self = true ->
  (forall address, count is_register (effects (_discovery_callback lib address self)) = 0%nat) /\
  (forall message, count is_register (effects (_device_callback lib hosts message self)) = 0%nat) /\
  (forall t, count is_register (effects (fire lib t self)) = 0%nat) /\
  (forall b, count is_register (effects (_add_device lib hosts b self)) = 0%nat).
Proof.
  unfold manual, serial_of. intros Hman. open_wrapper self.
  cbn [_config_device] in Hman. split; [|split; [|split]].
  - intros address. destruct c, lib as [[] ro]; reflexivity.
  - intros message. destruct c; run_method; [reflexivity|].
    rewrite Hman. destruct lib as [[] ro]; reflexivity.
  - intros [h|]; destruct c, lib as [[] []]; reflexivity.
  - intros b. destruct b; run_method; rewrite Hman;
      destruct c, lib as [[] ro]; reflexivity.
Qed.

(** X14. A device with a usable address in the host table never reaches
    the discovery service: in every world the manager reaches, no
    [register_device] call has been made for it, neither at startup nor
    when it is re-added after a disconnect. *)
Theorem manual_devices_are_never_registered libs ds hosts evs i d :
  ds !! i = Some d ->
  truthy (hosts !! upper (dev_serial d)) = true ->
  count is_register
    (calls_of i (trace (run_events hosts evs
                          (snd (ConnectionManager__init__ libs ds hosts))))) = 0%nat.
Proof.
  intros Hi Hman.
  assert (Hrun : forall evs w,
            (forall self, heap w !! i = Some self -> _config_device self = d) ->
            count is_register (calls_of i (trace w)) = 0%nat ->
            count is_register (calls_of i (trace (run_events hosts evs w))) = 0%nat).
  { clear evs. induction evs as [|[lib ev] evs IH]; intros w Hcfg Hw; [exact Hw|].
    cbn [run_events]. apply IH.
    - intros self Hself. destruct (heap w !! i) as [s0|] eqn:E.
      + destruct (step_identity hosts lib ev w i s0 E) as (s1 & H1 & Hc & _).
        assert (s1 = self) as <- by congruence. rewrite Hc. now apply Hcfg.
      + pose proof (step_heap_length hosts lib ev w) as Hlen.
        apply lookup_lt_Some in Hself. apply lookup_ge_None in E. lia.
    - rewrite step_calls, count_app, Hw.
      destruct (callback_of hosts lib w ev) as [[j m]|] eqn:Hcb; [|reflexivity].
      destruct (heap w !! j) as [self|] eqn:Hj; [|reflexivity].
      destruct (Nat.eqb_spec j i) as [->|Hne]; [|reflexivity].
      assert (Hself : manual hosts self = true).
      { unfold manual, serial_of. now rewrite (Hcfg self Hj). }
      destruct (callback_registers lib hosts self Hself) as (Hd & Hm & Hf & _).
      destruct ev as [j address|j message|k|j]; cbn [callback_of] in Hcb.
      + injection Hcb as _ <-. apply Hd.
      + injection Hcb as _ <-. apply Hm.
      + destruct (timers w !! k) as [t|]; [|discriminate].
        injection Hcb as _ <-. apply Hf.
      + discriminate. }
  apply Hrun.
  - intros self Hself.
    destruct (wrappers_fixed libs ds hosts i d Hi) as (s0 & H0 & Hc). congruence.
  - unfold ConnectionManager__init__.
    destruct (add_devices_spec libs hosts ds
                (mkWorld [] [] [(None, Log INFO "Starting discovery..." []);
                                (None, StartDiscovery)]))
      as (w0 & -> & _ & _ & Hnew).
    destruct (Hnew i d Hi) as [_ Hc]. cbn [heap length Nat.add snd trace calls_of app] in *.
    rewrite Hc.
    apply (callback_registers (libs i) hosts (DeviceWrapper__init__ d) Hman).
Qed.

Lemma manual_devices_are_never_registered_witness :
  count is_register
    (calls_of 0 (trace (run_events manual_hosts
                          [(lib_timeout, Delivered 0 STATE); (lib_ok, Fires 0)]
                          (snd (ConnectionManager__init__ (fun _ => lib_timeout)
                                  [living_room; bedroom] manual_hosts))))) = 0%nat.
Proof.
  apply (manual_devices_are_never_registered (fun _ => lib_timeout)
           [living_room; bedroom] manual_hosts
           [(lib_timeout, Delivered 0 STATE); (lib_ok, Fires 0)] 0%nat living_room);
    reflexivity.
Defined.
